(** * new_report: the MySQL-to-CSV-and-email DAG of [Auditing/new_report.py]

    A shallow embedding of the two Airflow tasks
    [fetch_mysql_data_and_save_as_csv] and [send_email_with_attachment], of
    the DAG that chains them, and of the library operations they rely on
    ([str.split], [str.strip], [os.path.basename], [DataFrame.to_csv],
    [base64.encodebytes]).

    Conventions.
    - A Python [str] is a Rocq [string], one character per code point; the
      development covers code points below 256.
    - A file holds [list byte]; text written to a file takes one byte per
      character.
    - The outside world (database server, mail server, a file system that
      may refuse changes, other processes that touch the files between the
      two tasks) is an explicit [Env] of answers; a task is a state
      transformer over a [World] that records every external call in a
      trace.
    - Constants that the source masks ([smtp_port = ***], the hosts, the
      credentials, the default recipients) are fields of a [Config]. *)

From Stdlib Require Import ZArith Lia Ascii String List Bool.
From Stdlib Require Import Strings.Byte DecimalString DecimalZ.
From stdpp Require Import base option list strings gmap.

Local Open Scope Z_scope.

(** ** Python strings *)

Module Py.

(** [str.isspace] on one character, for code points below 256: the ASCII
    controls 9..13 and 28..31, the space, NEL (133) and NBSP (160). *)
Definition isspace (c : ascii) : bool :=
  let n := N_of_ascii c in
  ((9 <=? n) && (n <=? 13) || (28 <=? n) && (n <=? 32)
   || (n =? 133) || (n =? 160))%N.

(** [s.split(sep)] for a one-character separator: never returns the empty
    list, and an empty piece is kept wherever two separators touch or one
    stands at an end. *)
Fixpoint split (sep : ascii) (s : string) : list string :=
  match s with
  | EmptyString => [EmptyString]
  | String c r =>
      if Ascii.eqb c sep then EmptyString :: split sep r
      else match split sep r with
           | t :: ts => String c t :: ts
           | [] => [String c EmptyString]
           end
  end.

(** [sep.join(l)]. *)
Fixpoint join (sep : string) (l : list string) : string :=
  match l with
  | [] => EmptyString
  | [t] => t
  | t :: ts => t +:+ sep +:+ join sep ts
  end.

Fixpoint lstrip (s : string) : string :=
  match s with
  | EmptyString => EmptyString
  | String c r => if isspace c then lstrip r else s
  end.

Fixpoint rstrip (s : string) : string :=
  match s with
  | EmptyString => EmptyString
  | String c r =>
      match rstrip r with
      | EmptyString => if isspace c then EmptyString else String c EmptyString
      | t => String c t
      end
  end.

(** [s.strip()] *)
Definition strip (s : string) : string := rstrip (lstrip s).

(** [all(c.isspace() for c in s)] *)
Fixpoint all_space (s : string) : bool :=
  match s with
  | EmptyString => true
  | String c r => isspace c && all_space r
  end.

(** [c in s] *)
Fixpoint contains (c : ascii) (s : string) : bool :=
  match s with
  | EmptyString => false
  | String d r => Ascii.eqb d c || contains c r
  end.

(** [s.count(c)] *)
Fixpoint count (c : ascii) (s : string) : nat :=
  match s with
  | EmptyString => O
  | String d r => (if Ascii.eqb d c then 1 else 0) + count c r
  end%nat.

Definition first (s : string) : option ascii :=
  match s with EmptyString => None | String c _ => Some c end.

Fixpoint last (s : string) : option ascii :=
  match s with
  | EmptyString => None
  | String c EmptyString => Some c
  | String _ r => last r
  end.

(** [os.path.basename(p)]: what follows the last slash. *)
Definition basename (p : string) : string :=
  List.last (split "/" p) EmptyString.

End Py.

(** The list comprehension of the send task,
    [[email.strip() for email in recipient_emails.split(',')]]. *)
Definition recipients_list (recipient_emails : string) : list string :=
  map Py.strip (Py.split "," recipient_emails).

(** *** The recipients as the specification words them

    "split on commas": the pieces hold no comma and give the input back when
    joined with commas.  "surrounding whitespace trimmed": the address is the
    piece without a run of whitespace at either end, and neither starts nor
    ends with whitespace itself. *)
Module RecipientsSpec.

Definition comma_pieces (s : string) (toks : list string) : Prop :=
  toks <> [] /\ Py.join "," toks = s /\
  Forall (fun t => Py.contains "," t = false) toks.

Definition trimmed_of (tok addr : string) : Prop :=
  (exists a b, tok = a +:+ addr +:+ b /\
               Py.all_space a = true /\ Py.all_space b = true) /\
  (forall c, Py.first addr = Some c -> Py.isspace c = false) /\
  (forall c, Py.last addr = Some c -> Py.isspace c = false).

Definition parsed (s : string) (addrs : list string) : Prop :=
  exists toks, comma_pieces s toks /\ Forall2 trimmed_of toks addrs.

End RecipientsSpec.

(** ** The data frame and its CSV text *)

Module Csv.

(** One cell of a query result: SQL NULL, an integer, or text.  (Floating
    point cells are outside this development.) *)
Inductive value :=
| Null
| Int (z : Z)
| Str (s : string).

(** A [pandas.DataFrame] as [pd.read_sql] builds it: the column labels in
    projection order and the rows, one cell per column. *)
Record DataFrame := { columns : list string; rows : list (list value) }.

Definition decimal (z : Z) : string := NilZero.string_of_int (Z.to_int z).

(** The text [to_csv] hands to the writer for a cell; [na_rep] is left at
    its default, the empty string. *)
Definition cell_text (v : value) : string :=
  match v with
  | Null => EmptyString
  | Int z => decimal z
  | Str s => s
  end.

(** [csv.writer] with the defaults [to_csv] passes on: the comma as
    delimiter, the double quote (character 34) as quote character,
    [QUOTE_MINIMAL], [doublequote], line terminator LF.  A field is quoted
    when it holds the delimiter, the quote character, a line feed or a
    carriage return. *)
Definition dquote : ascii := "034"%char.
Definition LF : ascii := "010"%char.

Definition special (c : ascii) : bool :=
  (Ascii.eqb c "," || Ascii.eqb c dquote || Ascii.eqb c "010"
   || Ascii.eqb c "013")%char.

Fixpoint needs_quote (s : string) : bool :=
  match s with
  | EmptyString => false
  | String c r => special c || needs_quote r
  end.

Fixpoint double_quotes (s : string) : string :=
  match s with
  | EmptyString => EmptyString
  | String c r =>
      if Ascii.eqb c dquote then String c (String c (double_quotes r))
      else String c (double_quotes r)
  end.

Definition quoted (s : string) : string :=
  String dquote (double_quotes s +:+ String dquote EmptyString).

Definition field (s : string) : string :=
  if needs_quote s then quoted s else s.

(** [writer.writerow]: a record whose text would be empty although it has
    a field (one empty field) is written as a pair of quotes. *)
Definition writerow (fields : list string) : string :=
  match fields with
  | [EmptyString] => quoted EmptyString
  | _ => Py.join "," (map field fields)
  end +:+ String LF EmptyString.

Fixpoint concat (l : list string) : string :=
  match l with
  | [] => EmptyString
  | t :: ts => t +:+ concat ts
  end.

(** [df.to_csv(path, index=False)], the text written: the header row,
    then one row per data row. *)
Definition to_csv (df : DataFrame) : string :=
  concat (map writerow (columns df :: map (map cell_text) (rows df))).

(** *** Reading the artifact back

    Modelled from the spec: the repository holds no reader for the artifact
    ("re-reading the artifact as a table"); this one follows the delimited
    format the writer uses (quoted fields, doubled quotes, blank lines
    skipped) and types a field the way a table reader does: the empty
    field is a null, decimal text is a number, anything else is text. *)

Inductive scan_state := AtStart | InField | InQuotes | AfterQuote.

Definition snoc (s : string) (c : ascii) : string :=
  s +:+ String c EmptyString.

Fixpoint scan (st : scan_state) (fld : string) (row : list string)
         (s : string) : list (list string) :=
  match s with
  | EmptyString =>
      match st, row with
      | AtStart, [] => []
      | _, _ => [row ++ [fld]]
      end
  | String c r =>
      match st with
      | AtStart =>
          if Ascii.eqb c dquote then scan InQuotes EmptyString row r
          else if Ascii.eqb c ","%char
               then scan AtStart EmptyString (row ++ [EmptyString]) r
          else if Ascii.eqb c LF
               then match row with
                    | [] => scan AtStart EmptyString [] r
                    | _ => (row ++ [EmptyString])
                             :: scan AtStart EmptyString [] r
                    end
          else scan InField (String c EmptyString) row r
      | InField =>
          if Ascii.eqb c ","%char
          then scan AtStart EmptyString (row ++ [fld]) r
          else if Ascii.eqb c LF
               then (row ++ [fld]) :: scan AtStart EmptyString [] r
          else scan InField (snoc fld c) row r
      | InQuotes =>
          if Ascii.eqb c dquote then scan AfterQuote fld row r
          else scan InQuotes (snoc fld c) row r
      | AfterQuote =>
          if Ascii.eqb c dquote then scan InQuotes (snoc fld c) row r
          else if Ascii.eqb c ","%char
               then scan AtStart EmptyString (row ++ [fld]) r
          else if Ascii.eqb c LF
               then (row ++ [fld]) :: scan AtStart EmptyString [] r
          else scan InField (snoc fld c) row r
      end
  end.

(** What the reader does once a field [f] is complete and the next
    character is a comma or a line feed. *)
Definition finish (c : ascii) (row : list string) (f rest : string)
  : list (list string) :=
  if Ascii.eqb c ","%char then scan AtStart EmptyString (row ++ [f]) rest
  else (row ++ [f]) :: scan AtStart EmptyString [] rest.

Definition ends_field (c : ascii) : Prop := c = ","%char \/ c = LF.

Definition parse_int (s : string) : option Z :=
  option_map Z.of_int (NilZero.int_of_string s).

Definition read_cell (s : string) : value :=
  match s with
  | EmptyString => Null
  | _ => match parse_int s with
         | Some z => Int z
         | None => Str s
         end
  end.

Definition read_csv (text : string) : DataFrame :=
  match scan AtStart EmptyString [] text with
  | [] => {| columns := []; rows := [] |}
  | header :: body =>
      {| columns := header; rows := map (map read_cell) body |}
  end.

(** The tables the round trip is stated for: at least one column, every
    row as wide as the header, and no text cell that is empty or reads as
    a number. *)
Definition plain_cell (v : value) : Prop :=
  match v with
  | Str s => s <> EmptyString /\ parse_int s = None
  | _ => True
  end.

Definition well_formed (df : DataFrame) : Prop :=
  columns df <> [] /\
  Forall (fun r => length r = length (columns df)) (rows df).

End Csv.

(** ** Base64, as [email.encoders.encode_base64] applies it *)

Module Base64.

(** Six bits, the most significant first. *)
Definition sextet : Type := (bool * bool * bool * bool * bool * bool)%type.

Definition bit (b : bool) : nat := if b then 1%nat else 0%nat.

Definition sextet_index (x : sextet) : nat :=
  let '(b5, b4, b3, b2, b1, b0) := x in
  (32 * bit b5 + 16 * bit b4 + 8 * bit b3 + 4 * bit b2 + 2 * bit b1
   + bit b0)%nat.

Definition table : string :=
  "ABCDEFGHIJKLMNOPQRSTUVWXYZabcdefghijklmnopqrstuvwxyz0123456789+/".

(** [table_b2a_base64[x]] *)
Definition char_of (x : sextet) : ascii :=
  match String.get (sextet_index x) table with
  | Some c => c
  | None => "="%char
  end.

(** The bits of a byte, the most significant first. *)
Definition bits (x : byte) :=
  let '(b0, (b1, (b2, (b3, (b4, (b5, (b6, b7))))))) := Byte.to_bits x in
  (b7, b6, b5, b4, b3, b2, b1, b0).

Definition of_bits8 (b7 b6 b5 b4 b3 b2 b1 b0 : bool) : byte :=
  Byte.of_bits (b0, (b1, (b2, (b3, (b4, (b5, (b6, b7))))))).

Definition encode3 (x y z : byte) : sextet * sextet * sextet * sextet :=
  let '(x7, x6, x5, x4, x3, x2, x1, x0) := bits x in
  let '(y7, y6, y5, y4, y3, y2, y1, y0) := bits y in
  let '(z7, z6, z5, z4, z3, z2, z1, z0) := bits z in
  ((x7, x6, x5, x4, x3, x2), (x1, x0, y7, y6, y5, y4),
   (y3, y2, y1, y0, z7, z6), (z5, z4, z3, z2, z1, z0)).

Definition pad : ascii := "="%char.

(** [binascii.b2a_base64] without its closing newline: four characters
    for every three bytes, the last group padded. *)
Fixpoint b2a (data : list byte) : string :=
  match data with
  | [] => EmptyString
  | [x] =>
      let '(p, q, _, _) := encode3 x x00 x00 in
      String (char_of p) (String (char_of q)
        (String pad (String pad EmptyString)))
  | [x; y] =>
      let '(p, q, r, _) := encode3 x y x00 in
      String (char_of p) (String (char_of q)
        (String (char_of r) (String pad EmptyString)))
  | x :: y :: z :: rest =>
      let '(p, q, r, t) := encode3 x y z in
      String (char_of p) (String (char_of q)
        (String (char_of r) (String (char_of t) (b2a rest))))
  end.

Definition b2a_base64 (data : list byte) : string :=
  b2a data +:+ String "010"%char EmptyString.

Definition MAXBINSIZE : nat := 57.

(** The loop of [base64.encodebytes],
    [for i in range(0, len(s), MAXBINSIZE): s[i : i + MAXBINSIZE]];
    [n] bounds the number of turns and [len(s)] turns are enough. *)
Fixpoint pieces (n : nat) (s : list byte) : list (list byte) :=
  match n, s with
  | O, _ => []
  | _, [] => []
  | S n', _ => firstn MAXBINSIZE s :: pieces n' (skipn MAXBINSIZE s)
  end.

Definition encodebytes (s : list byte) : string :=
  Csv.concat (map b2a_base64 (pieces (length s) s)).

(** *** Decoding

    Modelled from the spec: the repository only encodes; "once
    base64-decoded" is read as the decoder of RFC 4648 that a mail reader
    applies to the part: characters outside the alphabet (the line ends,
    the padding) carry no data, every four characters of the alphabet give
    three bytes, and a last group of two or three gives one or two. *)

Definition sextet_of_index (n : nat) : sextet :=
  (Nat.testbit n 5, Nat.testbit n 4, Nat.testbit n 3,
   Nat.testbit n 2, Nat.testbit n 1, Nat.testbit n 0).

Fixpoint position (c : ascii) (s : string) : option nat :=
  match s with
  | EmptyString => None
  | String d r =>
      if Ascii.eqb d c then Some O else option_map S (position c r)
  end.

Definition index_of (c : ascii) : option sextet :=
  option_map sextet_of_index (position c table).

Fixpoint sextets (s : string) : list sextet :=
  match s with
  | EmptyString => []
  | String c r =>
      match index_of c with
      | Some x => x :: sextets r
      | None => sextets r
      end
  end.

Definition decode4 (p q r t : sextet) : byte * byte * byte :=
  let '(p5, p4, p3, p2, p1, p0) := p in
  let '(q5, q4, q3, q2, q1, q0) := q in
  let '(r5, r4, r3, r2, r1, r0) := r in
  let '(t5, t4, t3, t2, t1, t0) := t in
  (of_bits8 p5 p4 p3 p2 p1 p0 q5 q4,
   of_bits8 q3 q2 q1 q0 r5 r4 r3 r2,
   of_bits8 r1 r0 t5 t4 t3 t2 t1 t0).

Definition zero6 : sextet := (false, false, false, false, false, false).

Fixpoint a2b (l : list sextet) : list byte :=
  match l with
  | p :: q :: r :: t :: rest =>
      let '(x, y, z) := decode4 p q r t in x :: y :: z :: a2b rest
  | [p; q; r] => let '(x, y, _) := decode4 p q r zero6 in [x; y]
  | [p; q] => let '(x, _, _) := decode4 p q zero6 zero6 in [x]
  | _ => []
  end.

Definition b64decode (s : string) : list byte := a2b (sextets s).

End Base64.

(** ** The world the tasks act on *)

(** The exceptions the tasks meet.  Which one an external call raises is the
    environment's choice. *)
Inductive exn :=
| MySQLError         (* mysql.connector.Error *)
| DatabaseError      (* pandas.errors.DatabaseError, from pd.read_sql *)
| FileNotFoundError
| OSError
| SMTPConnectError
| SMTPAuthenticationError
| SMTPRecipientsRefused
| SMTPServerDisconnected.

Definition is_mysql_error (e : exn) : bool :=
  match e with MySQLError => true | _ => false end.

Definition is_file_not_found (e : exn) : bool :=
  match e with FileNotFoundError => true | _ => false end.

Definition exn_text (e : exn) : string :=
  match e with
  | MySQLError => "mysql.connector.Error"
  | DatabaseError => "pandas.errors.DatabaseError"
  | FileNotFoundError => "FileNotFoundError"
  | OSError => "OSError"
  | SMTPConnectError => "SMTPConnectError"
  | SMTPAuthenticationError => "SMTPAuthenticationError"
  | SMTPRecipientsRefused => "SMTPRecipientsRefused"
  | SMTPServerDisconnected => "SMTPServerDisconnected"
  end.

Inductive result (A : Type) :=
| Ok (a : A)
| Raise (e : exn).
Arguments Ok {A} a.
Arguments Raise {A} e.

(** ** The message *)

Inductive payload :=
| Bytes (data : list byte)
| Text (text : string).

Record MIMEPart := {
  content_type : string;
  part_headers : list (string * string);
  part_payload : payload
}.

Record MIMEMultipart := {
  headers : list (string * string);
  parts : list MIMEPart
}.

(** [msg[name] = value] *)
Definition set_header (name value : string) (m : MIMEMultipart) : MIMEMultipart :=
  {| headers := headers m ++ [(name, value)]; parts := parts m |}.

(** [msg.attach(part)] *)
Definition attach (p : MIMEPart) (m : MIMEMultipart) : MIMEMultipart :=
  {| headers := headers m; parts := parts m ++ [p] |}.

Definition MIMEText (body subtype : string) : MIMEPart :=
  {| content_type := "text/" +:+ subtype;
     part_headers := [];
     part_payload := Text body |}.

Definition MIMEBase (maintype subtype : string) : MIMEPart :=
  {| content_type := maintype +:+ "/" +:+ subtype;
     part_headers := [];
     part_payload := Bytes [] |}.

(** [part.set_payload(data)] *)
Definition set_payload (data : list byte) (p : MIMEPart) : MIMEPart :=
  {| content_type := content_type p;
     part_headers := part_headers p;
     part_payload := Bytes data |}.

(** [part.add_header(name, value)] *)
Definition add_header (name value : string) (p : MIMEPart) : MIMEPart :=
  {| content_type := content_type p;
     part_headers := part_headers p ++ [(name, value)];
     part_payload := part_payload p |}.

(** [msg.get_payload(decode=True)] of a part not yet transfer-encoded. *)
Definition get_payload_bytes (p : MIMEPart) : list byte :=
  match part_payload p with
  | Bytes data => data
  | Text t => String.list_byte_of_string t
  end.

(** [encoders.encode_base64(part)]: the payload becomes the text of
    [encodebytes] and the transfer encoding is declared. *)
Definition encode_base64 (p : MIMEPart) : MIMEPart :=
  {| content_type := content_type p;
     part_headers := part_headers p ++ [("Content-Transfer-Encoding", "base64")];
     part_payload := Text (Base64.encodebytes (get_payload_bytes p)) |}.

(** What a reader of the message recovers from a part, by its declared
    transfer encoding. *)
Definition decoded_payload (p : MIMEPart) : list byte :=
  match part_payload p with
  | Bytes data => data
  | Text t =>
      if existsb (fun h => (fst h =? "Content-Transfer-Encoding")%string
                           && (snd h =? "base64")%string) (part_headers p)
      then Base64.b64decode t
      else String.list_byte_of_string t
  end.

(** ** External calls, their record and their answers *)

Inductive event :=
| DbConnect (ok : bool)
| DbQuery (sql : string)
| DbIsConnected (answer : bool)
| DbClose
| FsExists (path : string) (answer : bool)
| FsRemove (path : string) (ok : bool)
| FsWrite (path : string) (data : list byte) (ok : bool)
| FsRead (path : string) (found : bool)
| SmtpSSL (host : string) (port : Z) (ok : bool)
| SmtpPlain (host : string) (port : Z) (ok : bool)
| StartTLS (ok : bool)
| Login (user password : string) (ok : bool)
| Sendmail (sender : string) (rcpts : list string) (msg : MIMEMultipart) (ok : bool)
| Quit.

(** A connection as the process sees it. *)
Inductive link := Absent | Open | Lost | Closed.

Record World := {
  files : gmap string (list byte);
  db_link : link;
  smtp_link : link;
  trace : list event;
  stdout : list string
}.

Definition fresh_world (fs : gmap string (list byte)) : World :=
  {| files := fs; db_link := Absent; smtp_link := Absent;
     trace := []; stdout := [] |}.

(** The answers of the environment during one DAG run. *)
Record Env := {
  (* what [mysql.connector.connect] raises, if anything *)
  mysql_connect_raises : option exn;
  (* the table [pd.read_sql] returns, or what it raises *)
  read_sql_answer : result Csv.DataFrame;
  (* is the database connection still up after the query? *)
  db_link_survives : bool;
  (* what [os.remove] and [to_csv] raise on a location they may not change *)
  fs_write_raises : option exn;
  (* what other processes do to the files between the two tasks *)
  between_tasks : gmap string (list byte) -> gmap string (list byte);
  smtp_connect_raises : option exn;
  starttls_raises : option exn;
  login_raises : option exn;
  sendmail_raises : option exn;
  quit_raises : option exn
}.

(** The constants of the module, the masked ones included. *)
Record Config := {
  db_config : string;
  smtp_host : string;
  smtp_port : Z;
  smtp_user : string;
  smtp_password : string;
  default_recipient_emails : string;
  header_from : string;
  header_to : string;
  envelope_from : string
}.

(** What Airflow hands a task: [kwargs['ds']] and [dag_run.conf]. *)
Record Context := {
  ds : string;
  conf : gmap string string
}.

(** ** Tasks as state transformers

    A task body runs over its own local variables [L] and the world; it
    returns a value or raises. *)
Definition Task (L A : Type) : Type := L -> World -> result A * L * World.

Definition task_ret {L A} (a : A) : Task L A := fun l w => (Ok a, l, w).

Definition task_bind {L A B} (m : Task L A) (k : A -> Task L B) : Task L B :=
  fun l w =>
    match m l w with
    | (Ok a, l', w') => k a l' w'
    | (Raise e, l', w') => (Raise e, l', w')
    end.

#[global] Instance Task_ret {L} : MRet (Task L) := @task_ret L.
#[global] Instance Task_bind {L} : MBind (Task L) :=
  fun A B k m => task_bind m k.

Definition raise {L A} (e : exn) : Task L A := fun l w => (Raise e, l, w).

Definition get_local {L} : Task L L := fun l w => (Ok l, l, w).
Definition set_local {L} (f : L -> L) : Task L unit := fun l w => (Ok tt, f l, w).

Definition get_world {L} : Task L World := fun l w => (Ok w, l, w).
Definition set_world {L} (f : World -> World) : Task L unit :=
  fun l w => (Ok tt, l, f w).

Definition log {L} (e : event) : Task L unit :=
  set_world (fun w =>
    {| files := files w; db_link := db_link w; smtp_link := smtp_link w;
       trace := trace w ++ [e]; stdout := stdout w |}).

Definition print {L} (line : string) : Task L unit :=
  set_world (fun w =>
    {| files := files w; db_link := db_link w; smtp_link := smtp_link w;
       trace := trace w; stdout := stdout w ++ [line] |}).

Definition set_files {L} (f : gmap string (list byte) -> gmap string (list byte))
  : Task L unit :=
  set_world (fun w =>
    {| files := f (files w); db_link := db_link w; smtp_link := smtp_link w;
       trace := trace w; stdout := stdout w |}).

Definition set_db_link {L} (k : link) : Task L unit :=
  set_world (fun w =>
    {| files := files w; db_link := k; smtp_link := smtp_link w;
       trace := trace w; stdout := stdout w |}).

Definition set_smtp_link {L} (k : link) : Task L unit :=
  set_world (fun w =>
    {| files := files w; db_link := db_link w; smtp_link := k;
       trace := trace w; stdout := stdout w |}).

(** [try: body except <classes>: handler] *)
Definition try_except {L A} (body : Task L A) (caught : exn -> bool)
           (handler : exn -> Task L A) : Task L A :=
  fun l w =>
    match body l w with
    | (Raise e, l', w') =>
        if caught e then handler e l' w' else (Raise e, l', w')
    | r => r
    end.

(** [try: body finally: cleanup]: the cleanup runs on every way out; what it
    raises replaces the outcome of the body. *)
Definition try_finally {L A} (body : Task L A) (cleanup : Task L unit)
  : Task L A :=
  fun l w =>
    match body l w with
    | (r, l', w') =>
        match cleanup l' w' with
        | (Ok _, l'', w'') => (r, l'', w'')
        | (Raise e, l'', w'') => (Raise e, l'', w'')
        end
    end.

Definition when {L} (b : bool) (m : Task L unit) : Task L unit :=
  if b then m else task_ret tt.

(** ** The module constants *)

Definition CSV_FILE_PATH : string := "/mnt/c/airflow/temp/leads_export.csv".

(** The text of [sql_query], as the triple-quoted literal holds it. *)
Definition sql_query : string :=
"
                SELECT pl.creator_id, 
                COUNT(CASE WHEN gvd.stage_1_completed_at IS NOT NULL THEN 1 END) AS stage_1_count, 
                COUNT(CASE WHEN gvd.stage_2_completed_at IS NOT NULL THEN 1 END) AS stage_2_count, 
                COUNT(CASE WHEN gvd.stage_3_completed_at IS NOT NULL THEN 1 END) AS stage_3_count 
                FROM process_leads pl LEFT JOIN gpay_visit_details gvd ON gvd.lead_id = pl.id 
                WHERE pl.pipeline_id = 33 AND (DATE(gvd.stage_2_completed_at) = '2025-08-04' OR DATE(gvd.stage_1_completed_at) = '2025-08-04' OR DATE(gvd.stage_3_completed_at) = '2025-08-04') 
                GROUP BY pl.creator_id ORDER BY pl.creator_id;
            ".

(** The two halves of the f-string [body], around [{kwargs['ds']}]. *)
Definition body_before_ds : string :=
"
        <h3>Daily Leads Report</h3>
        <p>
            Please find the attached CSV file with the leads data for ".

Definition body_after_ds : string :=
".
        </p>
        <p>
            Regards,<br>
            Your Airflow Bot
        </p>
        ".

(** The date literals the query compares [DATE(column)] with: every
    occurrence of [DATE(<column>) = '<literal>'] in the text. *)
Fixpoint strip_prefix (p s : string) : option string :=
  match p, s with
  | EmptyString, _ => Some s
  | String a p', String b s' =>
      if Ascii.eqb a b then strip_prefix p' s' else None
  | String _ _, EmptyString => None
  end.

Fixpoint take_until (c : ascii) (s : string) : string * string :=
  match s with
  | EmptyString => (EmptyString, EmptyString)
  | String d r =>
      if Ascii.eqb d c then (EmptyString, r)
      else let '(a, b) := take_until c r in (String d a, b)
  end.

Fixpoint date_filters (sql : string) : list (string * string) :=
  match sql with
  | EmptyString => []
  | String _ r =>
      match strip_prefix "DATE(" sql with
      | Some rest =>
          let '(column, after) := take_until ")" rest in
          match strip_prefix " = '" after with
          | Some lit => (column, fst (take_until "'" lit)) :: date_filters r
          | None => date_filters r
          end
      | None => date_filters r
      end
  end.

(** ** The two tasks and the DAG *)

Inductive connection := MySQLConnection.
Inductive smtp_server := SMTPServer.

Record fetch_locals := { conn : option connection }.
Record send_locals := { server : option smtp_server }.

Inductive task_state :=
| success
| failed (e : exn)
| upstream_failed.

Section Dag.

Variable env : Env.
Variable cfg : Config.

(** *** [mysql.connector], [pandas], [os] *)

Definition mysql_connector_connect {L} (config : string) : Task L connection :=
  match mysql_connect_raises env with
  | Some e => log (DbConnect false) ;; raise e
  | None => log (DbConnect true) ;; set_db_link Open ;;
            mret MySQLConnection
  end.

Definition pd_read_sql {L} (sql : string) (c : connection)
  : Task L Csv.DataFrame :=
  log (DbQuery sql) ;;
  when (negb (db_link_survives env)) (set_db_link Lost) ;;
  match read_sql_answer env with
  | Ok df => mret df
  | Raise e => raise e
  end.

Definition is_connected {L} (c : connection) : Task L bool :=
  w ← get_world;
  let b := match db_link w with Open => true | _ => false end in
  log (DbIsConnected b) ;; mret b.

Definition close {L} (c : connection) : Task L unit :=
  log DbClose ;; set_db_link Closed.

Definition os_path_exists {L} (path : string) : Task L bool :=
  w ← get_world;
  let b := match files w !! path with Some _ => true | None => false end in
  log (FsExists path b) ;; mret b.

Definition os_remove {L} (path : string) : Task L unit :=
  w ← get_world;
  match files w !! path with
  | Some _ =>
      match fs_write_raises env with
      | Some e => log (FsRemove path false) ;; raise e
      | None => log (FsRemove path true) ;; set_files (delete path)
      end
  | None => raise FileNotFoundError
  end.

Definition to_csv {L} (df : Csv.DataFrame) (path : string) : Task L unit :=
  let data := String.list_byte_of_string (Csv.to_csv df) in
  match fs_write_raises env with
  | Some e => log (FsWrite path data false) ;; raise e
  | None => log (FsWrite path data true) ;; set_files (insert path data)
  end.

(** [with open(path, "rb") as f: f.read()] *)
Definition open_rb_read {L} (path : string) : Task L (list byte) :=
  w ← get_world;
  match files w !! path with
  | Some data => log (FsRead path true) ;; mret data
  | None => log (FsRead path false) ;; raise FileNotFoundError
  end.

(** *** [smtplib] *)

Definition SMTP_SSL {L} (host : string) (port : Z) : Task L smtp_server :=
  match smtp_connect_raises env with
  | Some e => log (SmtpSSL host port false) ;; raise e
  | None => log (SmtpSSL host port true) ;; set_smtp_link Open ;;
            mret SMTPServer
  end.

Definition SMTP {L} (host : string) (port : Z) : Task L smtp_server :=
  match smtp_connect_raises env with
  | Some e => log (SmtpPlain host port false) ;; raise e
  | None => log (SmtpPlain host port true) ;; set_smtp_link Open ;;
            mret SMTPServer
  end.

Definition starttls {L} (s : smtp_server) : Task L unit :=
  match starttls_raises env with
  | Some e => log (StartTLS false) ;; raise e
  | None => log (StartTLS true)
  end.

Definition login {L} (s : smtp_server) (user password : string) : Task L unit :=
  match login_raises env with
  | Some e => log (Login user password false) ;; raise e
  | None => log (Login user password true)
  end.

Definition sendmail {L} (s : smtp_server) (sender : string)
           (rcpts : list string) (msg : MIMEMultipart) : Task L unit :=
  match sendmail_raises env with
  | Some e => log (Sendmail sender rcpts msg false) ;; raise e
  | None => log (Sendmail sender rcpts msg true)
  end.

(** [server.quit()]: the socket is closed whether or not the QUIT
    exchange raises. *)
Definition quit {L} (s : smtp_server) : Task L unit :=
  log Quit ;; set_smtp_link Closed ;;
  match quit_raises env with
  | Some e => raise e
  | None => mret tt
  end.

(** *** [fetch_mysql_data_and_save_as_csv] *)

(** Lines 72-98: the query, under [try]/[except]/[finally]; the value is
    the [df] the rest of the task uses. *)
Definition run_query : Task fetch_locals Csv.DataFrame :=
  set_local (fun _ => {| conn := None |}) ;;
  try_finally
    (try_except
       (print "Establishing direct connection to MySQL..." ;;
        c ← mysql_connector_connect (db_config cfg);
        set_local (fun _ => {| conn := Some c |}) ;;
        print "Connection successful." ;;
        print "Executing MySQL query..." ;;
        df ← pd_read_sql sql_query c;
        print ("Successfully fetched "
               +:+ Csv.decimal (Z.of_nat (length (Csv.rows df)))
               +:+ " rows from the database.") ;;
        mret df)
       is_mysql_error
       (fun err =>
          print ("Error connecting to MySQL: " +:+ exn_text err) ;;
          raise err))
    (l ← get_local;
     match conn l with
     | Some c =>
         connected ← is_connected c;
         when connected
           (close c ;; print "MySQL connection is closed.")
     | None => mret tt
     end).

(** Lines 100-107: the file is removed if present, then written. *)
Definition save_csv {L} (df : Csv.DataFrame) : Task L string :=
  print ("Saving data to CSV at: " +:+ CSV_FILE_PATH) ;;
  present ← os_path_exists CSV_FILE_PATH;
  when present (os_remove CSV_FILE_PATH) ;;
  to_csv df CSV_FILE_PATH ;;
  print "CSV file created successfully." ;;
  mret CSV_FILE_PATH.

Definition fetch_mysql_data_and_save_as_csv : Task fetch_locals string :=
  df ← run_query;
  save_csv df.

(** *** [send_email_with_attachment] *)

Definition recipient_emails (kwargs : Context) : string :=
  default (default_recipient_emails cfg) (conf kwargs !! "recipient_emails").

Definition subject (kwargs : Context) : string :=
  "Daily Leads Report - " +:+ ds kwargs.

Definition body (kwargs : Context) : string :=
  body_before_ds +:+ ds kwargs +:+ body_after_ds.

(** Lines 124-140: headers and the HTML part. *)
Definition envelope (kwargs : Context) : MIMEMultipart :=
  attach (MIMEText (body kwargs) "html")
    (set_header "Subject" (subject kwargs)
      (set_header "To" (header_to cfg)
        (set_header "From" (header_from cfg)
          {| headers := []; parts := [] |}))).

Definition attachment_part (data : list byte) (file_path : string) : MIMEPart :=
  add_header "Content-Disposition"
    ("attachment; filename= " +:+ Py.basename file_path)
    (encode_base64 (set_payload data (MIMEBase "application" "octet-stream"))).

(** Lines 123-155: the message, with the file read and attached. *)
Definition compose {L} (file_path : string) (kwargs : Context)
  : Task L MIMEMultipart :=
  try_except
    (data ← open_rb_read file_path;
     mret (attach (attachment_part data file_path) (envelope kwargs)))
    is_file_not_found
    (fun e =>
       print ("Error: Attachment file not found at " +:+ file_path) ;;
       raise e).

(** Lines 157-181: connect, authenticate, send, under
    [try]/[except]/[finally]. *)
Definition deliver (msg : MIMEMultipart) (kwargs : Context)
  : Task send_locals unit :=
  set_local (fun _ => {| server := None |}) ;;
  try_finally
    (try_except
       (print ("Connecting to SMTP server at " +:+ smtp_host cfg +:+ ":"
               +:+ Csv.decimal (smtp_port cfg) +:+ "...") ;;
        s ← (if smtp_port cfg =? 465
             then s ← SMTP_SSL (smtp_host cfg) (smtp_port cfg);
                  set_local (fun _ => {| server := Some s |}) ;;
                  mret s
             else s ← SMTP (smtp_host cfg) (smtp_port cfg);
                  set_local (fun _ => {| server := Some s |}) ;;
                  starttls s ;;
                  mret s);
        login s (smtp_user cfg) (smtp_password cfg) ;;
        print "SMTP login successful." ;;
        sendmail s (envelope_from cfg)
                 (recipients_list (recipient_emails kwargs)) msg ;;
        print ("Email sent successfully to: " +:+ recipient_emails kwargs))
       (fun _ => true)
       (fun e =>
          print ("Failed to send email: " +:+ exn_text e) ;;
          raise e))
    (l ← get_local;
     match server l with
     | Some s => quit s ;; print "SMTP server connection closed."
     | None => mret tt
     end).

Definition send_email_with_attachment (file_path : string) (kwargs : Context)
  : Task send_locals unit :=
  msg ← compose file_path kwargs;
  deliver msg kwargs.

(** *** The DAG: the send task takes the return value of the fetch task

    Airflow runs the downstream task only when the upstream one succeeded;
    other processes may touch the files between the two. *)
Definition interfere (w : World) : World :=
  {| files := between_tasks env (files w); db_link := db_link w;
     smtp_link := smtp_link w; trace := trace w; stdout := stdout w |}.

Definition mysql_to_csv_and_email_dag (kwargs : Context) (w : World)
  : task_state * task_state * World :=
  match fetch_mysql_data_and_save_as_csv {| conn := None |} w with
  | (Ok csv_file, _, w1) =>
      match send_email_with_attachment csv_file kwargs
              {| server := None |} (interfere w1) with
      | (Ok _, _, w2) => (success, success, w2)
      | (Raise e, _, w2) => (success, failed e, w2)
      end
  | (Raise e, _, w1) => (failed e, upstream_failed, w1)
  end.

End Dag.

(** ** Reading a trace *)

(** The external calls made between two worlds of one run. *)
Definition emitted (w w' : World) : list event :=
  skipn (length (trace w)) (trace w').

Definition is_fs (e : event) : bool :=
  match e with
  | FsExists _ _ | FsRemove _ _ | FsWrite _ _ _ | FsRead _ _ => true
  | _ => false
  end.

Definition is_read (e : event) : bool :=
  match e with FsRead _ _ => true | _ => false end.

Definition is_smtp (e : event) : bool :=
  match e with
  | SmtpSSL _ _ _ | SmtpPlain _ _ _ | StartTLS _ | Login _ _ _
  | Sendmail _ _ _ _ | Quit => true
  | _ => false
  end.

Definition is_smtp_connect (e : event) : bool :=
  match e with SmtpSSL _ _ _ | SmtpPlain _ _ _ => true | _ => false end.

Definition is_starttls (e : event) : bool :=
  match e with StartTLS _ => true | _ => false end.


Definition is_quit (e : event) : bool :=
  match e with Quit => true | _ => false end.

Definition opens_db (e : event) : bool :=
  match e with DbConnect true => true | _ => false end.


(** Does every [login] of the trace happen on a channel under TLS?  The
    channel is under TLS from an [SMTP_SSL] connection on, or from a
    successful [starttls] on. *)
Fixpoint login_under_tls (secure : bool) (evs : list event) : bool :=
  match evs with
  | [] => true
  | SmtpSSL _ _ ok :: r => login_under_tls ok r
  | SmtpPlain _ _ _ :: r => login_under_tls false r
  | StartTLS ok :: r => login_under_tls (secure || ok) r
  | Login _ _ _ :: r => secure && login_under_tls secure r
  | _ :: r => login_under_tls secure r
  end.

(** The connection the delivery makes for a port, by line 162. *)
Definition connect_event (host : string) (port : Z) (ok : bool) : event :=
  if port =? 465 then SmtpSSL host port ok else SmtpPlain host port ok.

(** ** The calls of each block, in closed form

    What each block of the two tasks does to the outside, as a function of
    the answers of the environment; the run lemmas below prove that the
    tasks do exactly this. *)

Definition succeeds (o : option exn) : bool :=
  match o with None => true | Some _ => false end.

Definition query_events (env : Env) : list event :=
  match mysql_connect_raises env with
  | Some _ => [DbConnect false]
  | None =>
      [DbConnect true; DbQuery sql_query; DbIsConnected (db_link_survives env)]
      ++ (if db_link_survives env then [DbClose] else [])
  end.

Definition query_result (env : Env) : result Csv.DataFrame :=
  match mysql_connect_raises env with
  | Some e => Raise e
  | None => read_sql_answer env
  end.

Definition query_link (env : Env) (before : link) : link :=
  match mysql_connect_raises env with
  | Some _ => before
  | None => if db_link_survives env then Closed else Lost
  end.

Definition artifact_bytes (df : Csv.DataFrame) : list byte :=
  String.list_byte_of_string (Csv.to_csv df).

Definition save_events (env : Env) (present : bool) (df : Csv.DataFrame)
  : list event :=
  let ok := succeeds (fs_write_raises env) in
  FsExists CSV_FILE_PATH present
  :: (if present then [FsRemove CSV_FILE_PATH ok] else [])
  ++ (if present && negb ok then []
      else [FsWrite CSV_FILE_PATH (artifact_bytes df) ok]).

Definition save_result (env : Env) : result string :=
  match fs_write_raises env with
  | Some e => Raise e
  | None => Ok CSV_FILE_PATH
  end.

Definition save_files (env : Env) (df : Csv.DataFrame)
           (fs : gmap string (list byte)) : gmap string (list byte) :=
  match fs_write_raises env with
  | Some _ => fs
  | None => <[CSV_FILE_PATH := artifact_bytes df]> fs
  end.

Definition deliver_events (env : Env) (cfg : Config) (rcpts : list string)
           (msg : MIMEMultipart) : list event :=
  let implicit_tls := smtp_port cfg =? 465 in
  match smtp_connect_raises env with
  | Some _ => [connect_event (smtp_host cfg) (smtp_port cfg) false]
  | None =>
      connect_event (smtp_host cfg) (smtp_port cfg) true
      :: (if implicit_tls then []
          else [StartTLS (succeeds (starttls_raises env))])
      ++ (if implicit_tls || succeeds (starttls_raises env)
          then Login (smtp_user cfg) (smtp_password cfg)
                     (succeeds (login_raises env))
               :: (if succeeds (login_raises env)
                   then [Sendmail (envelope_from cfg) rcpts msg
                                  (succeeds (sendmail_raises env))]
                   else [])
          else [])
      ++ [Quit]
  end.

Definition first_raise (l : list (option exn)) : result unit :=
  match omap id l with
  | e :: _ => Raise e
  | [] => Ok tt
  end.

Definition deliver_result (env : Env) (cfg : Config) : result unit :=
  match smtp_connect_raises env with
  | Some e => Raise e
  | None =>
      match quit_raises env with
      | Some e => Raise e
      | None =>
          first_raise
            [ (if smtp_port cfg =? 465 then None else starttls_raises env);
              login_raises env; sendmail_raises env ]
      end
  end.

Definition deliver_link (env : Env) (before : link) : link :=
  match smtp_connect_raises env with
  | Some _ => before
  | None => Closed
  end.

Definition fetch_events (env : Env) (present : bool) : list event :=
  query_events env
  ++ match query_result env with
     | Ok df => save_events env present df
     | Raise _ => []
     end.

Definition send_events (env : Env) (cfg : Config) (rcpts : list string)
           (file_path : string) (kwargs_envelope : MIMEMultipart)
           (content : option (list byte)) : list event :=
  match content with
  | Some data =>
      FsRead file_path true
      :: deliver_events env cfg rcpts
           (attach (attachment_part data file_path) kwargs_envelope)
  | None => [FsRead file_path false]
  end.

Definition queries (evs : list event) : list string :=
  omap (fun e => match e with DbQuery sql => Some sql | _ => None end) evs.

Definition header_values (name : string) (m : MIMEMultipart) : list string :=
  omap (fun h => if (fst h =? name)%string then Some (snd h) else None)
       (headers m).

Definition sent_subjects (evs : list event) : list string :=
  mjoin (omap (fun e => match e with
                        | Sendmail _ _ m _ => Some (header_values "Subject" m)
                        | _ => None
                        end) evs).

Definition sent_recipients (evs : list event) : list (list string) :=
  omap (fun e => match e with
                 | Sendmail _ rcpts _ _ => Some rcpts
                 | _ => None
                 end) evs.


Definition is_open (k : link) : bool :=
  match k with Open => true | _ => false end.

(** The artifact on disk, read back as a table. *)
Definition read_artifact (w : World) : option Csv.DataFrame :=
  (fun data => Csv.read_csv (String.string_of_list_byte data))
    <$> files w !! CSV_FILE_PATH.

(** ** Sample runs *)

Module Sample.

Definition leads : Csv.DataFrame :=
  {| Csv.columns :=
       ["creator_id"; "stage_1_count"; "stage_2_count"; "stage_3_count"];
     Csv.rows := [[Csv.Int 7; Csv.Int 2; Csv.Int 1; Csv.Int 0];
                  [Csv.Int 12; Csv.Int 0; Csv.Int 3; Csv.Int 3]] |}.

Definition leads_next_day : Csv.DataFrame :=
  {| Csv.columns :=
       ["creator_id"; "stage_1_count"; "stage_2_count"; "stage_3_count"];
     Csv.rows := [[Csv.Int 9; Csv.Int 1; Csv.Int 1; Csv.Int 1]] |}.

(** Every external call succeeds. *)
Definition env_ok : Env :=
  {| mysql_connect_raises := None;
     read_sql_answer := Ok leads;
     db_link_survives := true;
     fs_write_raises := None;
     between_tasks := fun fs => fs;
     smtp_connect_raises := None;
     starttls_raises := None;
     login_raises := None;
     sendmail_raises := None;
     quit_raises := None |}.

Definition env_next_day : Env :=
  {| mysql_connect_raises := None;
     read_sql_answer := Ok leads_next_day;
     db_link_survives := true;
     fs_write_raises := None;
     between_tasks := fun fs => fs;
     smtp_connect_raises := None;
     starttls_raises := None;
     login_raises := None;
     sendmail_raises := None;
     quit_raises := None |}.

(** The database refuses the connection. *)
Definition env_db_down : Env :=
  {| mysql_connect_raises := Some MySQLError;
     read_sql_answer := Ok leads;
     db_link_survives := true;
     fs_write_raises := None;
     between_tasks := fun fs => fs;
     smtp_connect_raises := None;
     starttls_raises := None;
     login_raises := None;
     sendmail_raises := None;
     quit_raises := None |}.

Definition cfg : Config :=
  {| db_config := "mysql://reports";
     smtp_host := "smtp.example.com";
     smtp_port := 587;
     smtp_user := "bot";
     smtp_password := "secret";
     default_recipient_emails := "ops@example.com";
     header_from := "reports@example.com";
     header_to := "team@example.com";
     envelope_from := "reports@example.com" |}.

Definition kwargs (run_date recipients : string) : Context :=
  {| ds := run_date; conf := {[ "recipient_emails" := recipients ]} |}.

Definition artifact : list byte :=
  String.list_byte_of_string (Csv.to_csv leads).

Definition disk : gmap string (list byte) := {[ CSV_FILE_PATH := artifact ]}.

(** One text column, once holding an empty text and once a null. *)
Definition blank_text : Csv.DataFrame :=
  {| Csv.columns := ["creator_id"; "stage_1_count"];
     Csv.rows := [[Csv.Str EmptyString; Csv.Int 1]] |}.

Definition null_cell : Csv.DataFrame :=
  {| Csv.columns := ["creator_id"; "stage_1_count"];
     Csv.rows := [[Csv.Null; Csv.Int 1]] |}.

End Sample.

(** ** Further readers of a run *)

Definition is_sendmail (e : event) : bool :=
  match e with Sendmail _ _ _ _ => true | _ => false end.

Definition is_write (e : event) : bool :=
  match e with FsWrite _ _ _ => true | _ => false end.

Definition is_query (e : event) : bool :=
  match e with DbQuery _ => true | _ => false end.

(** A mail the server took. *)
Definition accepted (e : event) : bool :=
  match e with Sendmail _ _ _ true => true | _ => false end.

(** The lines printed between two worlds of one run. *)
Definition printed (w w' : World) : list string :=
  skipn (length (stdout w)) (stdout w').

(** The line the [except mysql.connector.Error] clause prints. *)
Definition mysql_error_line (e : exn) : string :=
  "Error connecting to MySQL: " +:+ exn_text e.

Definition is_success (s : task_state) : bool :=
  match s with success => true | _ => false end.

(** The calls of a whole DAG run, from the files it starts with. *)
Definition dag_events (env : Env) (cfg : Config) (kwargs : Context)
           (fs : gmap string (list byte)) : list event :=
  fetch_events env (bool_decide (is_Some (fs !! CSV_FILE_PATH)))
  ++ match query_result env with
     | Ok df =>
         match fs_write_raises env with
         | None =>
             send_events env cfg
               (recipients_list
                  (default (default_recipient_emails cfg)
                           (conf kwargs !! "recipient_emails")))
               CSV_FILE_PATH
               (attach (MIMEText (body_before_ds +:+ ds kwargs +:+ body_after_ds)
                                 "html")
                  (set_header "Subject" ("Daily Leads Report - " +:+ ds kwargs)
                    (set_header "To" (header_to cfg)
                      (set_header "From" (header_from cfg)
                        {| headers := []; parts := [] |}))))
               (between_tasks env (save_files env df fs) !! CSV_FILE_PATH)
         | Some _ => []
         end
     | Raise _ => []
     end.

(** The states of the two tasks after a DAG run. *)
Definition dag_states (env : Env) (cfg : Config)
           (fs : gmap string (list byte)) : task_state * task_state :=
  match query_result env with
  | Raise e => (failed e, upstream_failed)
  | Ok df =>
      match fs_write_raises env with
      | Some e => (failed e, upstream_failed)
      | None =>
          (success,
           match between_tasks env (save_files env df fs) !! CSV_FILE_PATH with
           | None => failed FileNotFoundError
           | Some _ =>
               match deliver_result env cfg with
               | Ok _ => success
               | Raise e => failed e
               end
           end)
      end
  end.

Definition dag_files (env : Env) (fs : gmap string (list byte))
  : gmap string (list byte) :=
  match query_result env with
  | Raise _ => fs
  | Ok df =>
      match fs_write_raises env with
      | Some _ => fs
      | None => between_tasks env (save_files env df fs)
      end
  end.

(** A character of a base64 body: one of the alphabet, or the padding. *)
Definition b64_char (c : ascii) : bool :=
  match Base64.index_of c with
  | Some _ => true
  | None => Ascii.eqb c Base64.pad
  end.

Fixpoint all_chars (p : ascii -> bool) (s : string) : bool :=
  match s with
  | EmptyString => true
  | String c r => p c && all_chars p r
  end.

(** More sample environments. *)
Module Cases.

(** The mail server rejects the credentials. *)
Definition env_bad_password : Env :=
  {| mysql_connect_raises := None;
     read_sql_answer := Ok Sample.leads;
     db_link_survives := true;
     fs_write_raises := None;
     between_tasks := fun fs => fs;
     smtp_connect_raises := None;
     starttls_raises := None;
     login_raises := Some SMTPAuthenticationError;
     sendmail_raises := None;
     quit_raises := None |}.

(** The mail is accepted, then the QUIT exchange fails. *)
Definition env_quit_fails : Env :=
  {| mysql_connect_raises := None;
     read_sql_answer := Ok Sample.leads;
     db_link_survives := true;
     fs_write_raises := None;
     between_tasks := fun fs => fs;
     smtp_connect_raises := None;
     starttls_raises := None;
     login_raises := None;
     sendmail_raises := None;
     quit_raises := Some SMTPServerDisconnected |}.

(** Another process replaces the artifact between the two tasks. *)
Definition stale : list byte := String.list_byte_of_string "old".

Definition env_replaced : Env :=
  {| mysql_connect_raises := None;
     read_sql_answer := Ok Sample.leads;
     db_link_survives := true;
     fs_write_raises := None;
     between_tasks := fun fs => <[CSV_FILE_PATH := stale]> fs;
     smtp_connect_raises := None;
     starttls_raises := None;
     login_raises := None;
     sendmail_raises := None;
     quit_raises := None |}.


(** The query fails inside pandas. *)
Definition env_query_fails : Env :=
  {| mysql_connect_raises := None;
     read_sql_answer := Raise DatabaseError;
     db_link_survives := true;
     fs_write_raises := None;
     between_tasks := fun fs => fs;
     smtp_connect_raises := None;
     starttls_raises := None;
     login_raises := None;
     sendmail_raises := None;
     quit_raises := None |}.

(** A table whose text needs quoting. *)
Definition quoting : Csv.DataFrame :=
  {| Csv.columns := ["creator_id"; "note"];
     Csv.rows := [[Csv.Int 7; Csv.Str "a,b"]; [Csv.Null; Csv.Str "plain"]] |}.

End Cases.

(** ** Facts on the string primitives *)

Section StringFacts.

Lemma append_nil_l (t : string) : EmptyString +:+ t = t.
Proof. reflexivity. Qed.

Lemma append_cons c (s t : string) : String c s +:+ t = String c (s +:+ t).
Proof. reflexivity. Qed.

Lemma append_nil_r (s : string) : s +:+ EmptyString = s.
Proof.
  induction s as [|c s IH]; [reflexivity|]. now rewrite append_cons, IH.
Qed.

Lemma append_assoc (a b c : string) : (a +:+ b) +:+ c = a +:+ b +:+ c.
Proof.
  induction a as [|x a IH]; [reflexivity|]. now rewrite !append_cons, IH.
Qed.

Lemma split_nonempty sep s : Py.split sep s <> [].
Proof.
  destruct s as [|c r]; cbn; [discriminate|].
  destruct (Ascii.eqb c sep); [discriminate|].
  destruct (Py.split sep r); discriminate.
Qed.

Lemma split_length sep s : length (Py.split sep s) = S (Py.count sep s).
Proof.
  induction s as [|c r IH]; [reflexivity|]. cbn.
  destruct (Ascii.eqb c sep); cbn; [now rewrite IH|].
  destruct (Py.split sep r) eqn:E; cbn in *; [discriminate|exact IH].
Qed.

Lemma join_cons sep t u us :
  Py.join sep (t :: u :: us) = t +:+ sep +:+ Py.join sep (u :: us).
Proof. reflexivity. Qed.

Lemma join_split sep s : Py.join (String sep EmptyString) (Py.split sep s) = s.
Proof.
  induction s as [|c r IH]; [reflexivity|]. cbn [Py.split].
  destruct (Ascii.eqb_spec c sep) as [->|Hne].
  - pose proof (split_nonempty sep r) as Hn.
    destruct (Py.split sep r) as [|u us]; [contradiction|].
    rewrite join_cons, IH. reflexivity.
  - pose proof (split_nonempty sep r) as Hn.
    destruct (Py.split sep r) as [|t [|u us]].
    + contradiction.
    + cbn in *. now rewrite IH.
    + rewrite join_cons in IH. rewrite join_cons, append_cons. now rewrite IH.
Qed.

Lemma split_no_sep sep s :
  Forall (fun t => Py.contains sep t = false) (Py.split sep s).
Proof.
  induction s as [|c r IH]; cbn [Py.split].
  - constructor; [reflexivity|constructor].
  - destruct (Ascii.eqb c sep) eqn:E.
    + constructor; [reflexivity|exact IH].
    + destruct (Py.split sep r) as [|t ts].
      * constructor; [cbn; now rewrite E|constructor].
      * inversion IH; subst. constructor; [cbn; now rewrite E|assumption].
Qed.

End StringFacts.



Section StripFacts.

Lemma lstrip_spec s :
  exists a, s = a +:+ Py.lstrip s /\ Py.all_space a = true /\
            (forall c, Py.first (Py.lstrip s) = Some c -> Py.isspace c = false).
Proof.
  induction s as [|c r (a & Ha & Hsp & Hf)]; cbn [Py.lstrip].
  - exists EmptyString. repeat split. discriminate.
  - destruct (Py.isspace c) eqn:E.
    + exists (String c a). rewrite append_cons, <- Ha.
      repeat split; [cbn; now rewrite E, Hsp|exact Hf].
    + exists EmptyString. repeat split. cbn. now intros ? [= <-].
Qed.

Lemma rstrip_spec s :
  exists b, s = Py.rstrip s +:+ b /\ Py.all_space b = true /\
            (forall c, Py.last (Py.rstrip s) = Some c -> Py.isspace c = false).
Proof.
  induction s as [|c r (b & Hb & Hsp & Hl)]; cbn [Py.rstrip].
  - exists EmptyString. repeat split. discriminate.
  - destruct (Py.rstrip r) as [|d t] eqn:Er.
    + destruct (Py.isspace c) eqn:E.
      * exists (String c b). rewrite append_nil_l in *. subst r.
        repeat split; [cbn; now rewrite E, Hsp|discriminate].
      * exists b. rewrite append_cons, <- Hb.
        repeat split; [exact Hsp|]. cbn. now intros ? [= <-].
    + exists b. rewrite append_cons, <- Hb. repeat split; [exact Hsp|].
      intros x Hx. apply Hl. exact Hx.
Qed.

Lemma rstrip_first s c :
  Py.first s = Some c -> Py.isspace c = false ->
  Py.first (Py.rstrip s) = Some c.
Proof.
  destruct s as [|d r]; [discriminate|]. cbn. intros [= ->] E.
  destruct (Py.rstrip r); [now rewrite E|reflexivity].
Qed.

Lemma lstrip_empty_iff s :
  Py.lstrip s = EmptyString <-> Py.all_space s = true.
Proof.
  induction s as [|c r IH]; cbn; [tauto|].
  destruct (Py.isspace c); cbn; [exact IH|]. split; discriminate.
Qed.

Lemma rstrip_empty_iff s :
  Py.rstrip s = EmptyString <-> Py.all_space s = true.
Proof.
  induction s as [|c r IH]; cbn; [tauto|].
  destruct (Py.rstrip r), (Py.isspace c); cbn; split; try discriminate;
    try tauto; intros H; try (apply IH in H; discriminate).
Qed.

Lemma lstrip_all_space s :
  Py.all_space (Py.lstrip s) = true -> Py.lstrip s = EmptyString.
Proof.
  destruct (lstrip_spec s) as (a & _ & _ & Hf).
  destruct (Py.lstrip s) as [|c r]; [reflexivity|]. cbn.
  now rewrite (Hf c eq_refl).
Qed.

Lemma strip_empty_iff s :
  Py.strip s = EmptyString <-> Py.all_space s = true.
Proof.
  unfold Py.strip. rewrite rstrip_empty_iff. split.
  - intros H. now apply lstrip_empty_iff, lstrip_all_space.
  - intros H. apply lstrip_empty_iff in H. now rewrite H.
Qed.

Lemma strip_trimmed s : RecipientsSpec.trimmed_of s (Py.strip s).
Proof.
  unfold Py.strip.
  destruct (lstrip_spec s) as (a & Ha & Hsa & Hf).
  destruct (rstrip_spec (Py.lstrip s)) as (b & Hb & Hsb & Hl).
  split; [|split].
  - exists a, b. rewrite <- Hb. auto.
  - intros c Hc. destruct (Py.first (Py.lstrip s)) as [d|] eqn:Ed.
    + rewrite (rstrip_first _ d Ed (Hf d eq_refl)) in Hc.
      injection Hc as <-. now apply Hf.
    + destruct (Py.lstrip s); [discriminate Hc|discriminate Ed].
  - exact Hl.
Qed.

Lemma recipients_parsed s : RecipientsSpec.parsed s (recipients_list s).
Proof.
  exists (Py.split "," s). split.
  - split; [apply split_nonempty|]. split; [apply join_split|].
    apply split_no_sep.
  - unfold recipients_list. induction (Py.split "," s); constructor;
      [apply strip_trimmed|assumption].
Qed.

Lemma recipients_length s :
  length (recipients_list s) = S (Py.count "," s).
Proof. unfold recipients_list. now rewrite length_map, split_length. Qed.

Lemma recipients_empty_iff s :
  Forall2 (fun tok addr => addr = EmptyString <-> Py.all_space tok = true)
          (Py.split "," s) (recipients_list s).
Proof.
  unfold recipients_list. induction (Py.split "," s); constructor;
    [apply strip_empty_iff|assumption].
Qed.

(** The specification's wording determines the list: there is one way to
    cut a string at its commas and one way to trim a piece. *)

Lemma split_app_sep sep t r :
  Py.contains sep t = false ->
  Py.split sep (t +:+ String sep r) = t :: Py.split sep r.
Proof.
  induction t as [|c t IH]; intros Hc.
  - rewrite append_nil_l. cbn [Py.split]. now rewrite Ascii.eqb_refl.
  - cbn in Hc. apply orb_false_iff in Hc as [Hne Hc].
    rewrite append_cons. cbn [Py.split]. rewrite Hne, IH by exact Hc.
    reflexivity.
Qed.

Lemma split_no_sep_id sep t :
  Py.contains sep t = false -> Py.split sep t = [t].
Proof.
  induction t as [|c t IH]; intros Hc; [reflexivity|].
  cbn in Hc. apply orb_false_iff in Hc as [Hne Hc].
  cbn [Py.split]. now rewrite Hne, IH.
Qed.

Lemma split_join sep toks :
  toks <> [] -> Forall (fun t => Py.contains sep t = false) toks ->
  Py.split sep (Py.join (String sep EmptyString) toks) = toks.
Proof.
  intros Hne Hall. induction Hall as [|t toks Ht Hall IH]; [contradiction|].
  destruct toks as [|u toks].
  - cbn [Py.join]. now apply split_no_sep_id.
  - rewrite join_cons, append_cons, append_nil_l.
    rewrite split_app_sep by exact Ht. f_equal. now apply IH.
Qed.

Lemma lstrip_app_space a x :
  Py.all_space a = true -> Py.lstrip (a +:+ x) = Py.lstrip x.
Proof.
  induction a as [|c a IH]; intros Hsp; [reflexivity|].
  cbn in Hsp. apply andb_true_iff in Hsp as [Hc Hsp].
  rewrite append_cons. cbn [Py.lstrip]. now rewrite Hc, IH.
Qed.

Lemma lstrip_id x :
  (forall c, Py.first x = Some c -> Py.isspace c = false) -> Py.lstrip x = x.
Proof.
  destruct x as [|c x]; [reflexivity|]. intros H. cbn.
  now rewrite (H c eq_refl).
Qed.

Lemma rstrip_app_space e b :
  Py.all_space b = true -> Py.rstrip (e +:+ b) = Py.rstrip e.
Proof.
  intros Hsp. induction e as [|c e IH].
  - rewrite append_nil_l. now apply rstrip_empty_iff.
  - rewrite append_cons. cbn [Py.rstrip]. now rewrite IH.
Qed.

Lemma rstrip_id e :
  (forall c, Py.last e = Some c -> Py.isspace c = false) -> Py.rstrip e = e.
Proof.
  induction e as [|c e IH]; [reflexivity|]. intros H. cbn [Py.rstrip].
  destruct e as [|d e].
  - cbn. now rewrite (H c eq_refl).
  - rewrite IH; [reflexivity|]. intros x Hx. apply H. exact Hx.
Qed.

Lemma trimmed_unique tok addr :
  RecipientsSpec.trimmed_of tok addr -> addr = Py.strip tok.
Proof.
  intros ((a & b & -> & Ha & Hb) & Hfirst & Hlast). unfold Py.strip.
  rewrite lstrip_app_space by exact Ha.
  destruct addr as [|c addr].
  - rewrite append_nil_l.
    apply lstrip_empty_iff in Hb. now rewrite Hb.
  - rewrite lstrip_id.
    + rewrite rstrip_app_space by exact Hb. symmetry. now apply rstrip_id.
    + rewrite append_cons. cbn. intros x [= <-]. now apply Hfirst.
Qed.

Lemma parsed_unique s addrs :
  RecipientsSpec.parsed s addrs -> addrs = recipients_list s.
Proof.
  intros (toks & (Hne & Hjoin & Hnc) & Htrim). unfold recipients_list.
  rewrite <- Hjoin. change "," with (String ","%char EmptyString).
  rewrite split_join by assumption.
  clear Hne Hjoin Hnc. induction Htrim as [|t a toks addrs Ht _ IH];
    [reflexivity|].
  cbn [map]. f_equal; [now apply trimmed_unique|exact IH].
Qed.

End StripFacts.

(** ** Running the tasks *)

Lemma emitted_app (w w' : World) (evs : list event) :
  trace w' = trace w ++ evs -> emitted w w' = evs.
Proof. intros H. unfold emitted. rewrite H. apply drop_app_length. Qed.

(** Unfold the task combinators and the external calls down to the world. *)
Ltac run_task :=
  cbv [mysql_to_csv_and_email_dag interfere
       fetch_mysql_data_and_save_as_csv run_query save_csv
       send_email_with_attachment compose deliver
       mbind mret Task_bind Task_ret task_bind task_ret
       try_except try_finally when raise
       get_local set_local get_world set_world
       log print set_files set_db_link set_smtp_link
       mysql_connector_connect pd_read_sql is_connected close
       os_path_exists os_remove to_csv open_rb_read
       SMTP_SSL SMTP starttls login sendmail quit
       files db_link smtp_link trace stdout conn server
       mysql_connect_raises read_sql_answer db_link_survives between_tasks
       fs_write_raises
       smtp_connect_raises starttls_raises login_raises sendmail_raises
       quit_raises smtp_port smtp_host smtp_user smtp_password envelope_from
       db_config is_mysql_error is_file_not_found negb].

(** Bring the trace of the final world to the form [t ++ evs]. *)
Ltac trace_shape :=
  repeat rewrite <- app_assoc; cbn [app].

Ltac emitted_is evs :=
  match goal with
  | |- context [emitted ?w ?w'] =>
      replace (emitted w w') with evs
        by (symmetry; apply emitted_app; cbn [trace]; trace_shape; reflexivity)
  end.

Section RunFacts.

Variable env : Env.
Variable cfg : Config.

Lemma run_query_run l w :
  exists l' w',
    run_query env cfg l w = (query_result env, l', w') /\
    files w' = files w /\ smtp_link w' = smtp_link w /\
    db_link w' = query_link env (db_link w) /\
    trace w' = trace w ++ query_events env.
Proof.
  destruct env as [c q sv fw bt sc st lg sm qt], cfg, w.
  unfold query_result, query_link, query_events. run_task.
  destruct c as [e|]; [destruct e|destruct sv, q as [df|e]; try destruct e];
    run_task; do 2 eexists; (split; [reflexivity|]);
    cbn; trace_shape; repeat split.
Qed.

Lemma save_csv_run {L} df (l : L) w :
  exists w',
    save_csv env (L:=L) df l w = (save_result env, l, w') /\
    files w' = save_files env df (files w) /\
    db_link w' = db_link w /\ smtp_link w' = smtp_link w /\
    trace w' = trace w
               ++ save_events env
                    (bool_decide (is_Some (files w !! CSV_FILE_PATH))) df.
Proof.
  destruct env as [c q sv fw bt sc st lg sm qt], w as [fs d s t o].
  unfold save_events, save_result, save_files, artifact_bytes. run_task.
  destruct (fs !! CSV_FILE_PATH) as [old|] eqn:E, fw as [e|]; run_task;
    rewrite ?E; run_task;
    eexists; (split; [reflexivity|]); cbn; trace_shape;
    rewrite ?insert_delete_eq; repeat split.
Qed.

Lemma compose_run {L} file_path kwargs (l : L) w :
  exists w',
    compose (L:=L) cfg file_path kwargs l w =
      (match files w !! file_path with
       | Some data =>
           Ok (attach (attachment_part data file_path) (envelope cfg kwargs))
       | None => Raise FileNotFoundError
       end, l, w') /\
    files w' = files w /\ db_link w' = db_link w /\
    smtp_link w' = smtp_link w /\
    trace w' = trace w
               ++ [FsRead file_path (bool_decide (is_Some (files w !! file_path)))].
Proof.
  destruct w as [fs d s t o]. run_task.
  destruct (fs !! file_path) as [data|]; run_task;
    eexists; (split; [reflexivity|]); cbn; repeat split.
Qed.

Lemma deliver_run msg kwargs l w :
  exists l' w',
    deliver env cfg msg kwargs l w = (deliver_result env cfg, l', w') /\
    files w' = files w /\ db_link w' = db_link w /\
    smtp_link w' = deliver_link env (smtp_link w) /\
    trace w' = trace w
               ++ deliver_events env cfg
                    (recipients_list (recipient_emails cfg kwargs)) msg.
Proof.
  destruct env as [c q sv fw bt sc st lg sm qt], cfg as [? ? port ? ? ? ? ? ?], w.
  unfold deliver_result, deliver_link, deliver_events, connect_event,
    first_raise.
  run_task. destruct (port =? 465);
    destruct sc as [e1|]; [destruct e1| |destruct e1|];
    run_task; try (do 2 eexists; (split; [reflexivity|]);
                   cbn; trace_shape; repeat split; fail);
    destruct st as [e2|], lg as [e3|], sm as [e4|], qt as [e5|];
    run_task; cbn;
    do 2 eexists; (split; [reflexivity|]);
    cbn; trace_shape; repeat split.
Qed.

Lemma fetch_run l w :
  exists l' w',
    fetch_mysql_data_and_save_as_csv env cfg l w =
      (match query_result env with
       | Ok _ => save_result env
       | Raise e => Raise e
       end, l', w') /\
    files w' = match query_result env with
               | Ok df => save_files env df (files w)
               | Raise _ => files w
               end /\
    smtp_link w' = smtp_link w /\
    db_link w' = query_link env (db_link w) /\
    trace w' = trace w
               ++ fetch_events env
                    (bool_decide (is_Some (files w !! CSV_FILE_PATH))).
Proof.
  destruct (run_query_run l w) as (l1 & w1 & Hq & Hf & Hs & Hd & Ht).
  unfold fetch_mysql_data_and_save_as_csv, fetch_events.
  cbv [mbind Task_bind task_bind]. rewrite Hq.
  destruct (query_result env) as [df|e].
  - destruct (save_csv_run df l1 w1) as (w2 & Hsv & Hf2 & Hd2 & Hs2 & Ht2).
    exists l1, w2. rewrite Hsv, Hf2, Hd2, Hs2, Ht2, Hf, Hs, Hd, Ht.
    rewrite <- app_assoc. repeat split.
  - exists l1, w1. rewrite app_nil_r. repeat split; assumption.
Qed.

Lemma send_run file_path kwargs l w :
  exists l' w',
    send_email_with_attachment env cfg file_path kwargs l w =
      (match files w !! file_path with
       | Some _ => deliver_result env cfg
       | None => Raise FileNotFoundError
       end, l', w') /\
    files w' = files w /\ db_link w' = db_link w /\
    smtp_link w' = match files w !! file_path with
                   | Some _ => deliver_link env (smtp_link w)
                   | None => smtp_link w
                   end /\
    trace w' = trace w
               ++ send_events env cfg
                    (recipients_list (recipient_emails cfg kwargs))
                    file_path (envelope cfg kwargs) (files w !! file_path).
Proof.
  destruct (compose_run (L:=send_locals) file_path kwargs l w)
    as (w1 & Hc & Hf & Hd & Hs & Ht).
  unfold send_email_with_attachment, send_events.
  cbv [mbind Task_bind task_bind]. rewrite Hc.
  destruct (files w !! file_path) as [data|] eqn:E.
  - destruct (deliver_run
                (attach (attachment_part data file_path) (envelope cfg kwargs))
                kwargs l w1) as (l2 & w2 & Hdl & Hf2 & Hd2 & Hs2 & Ht2).
    exists l2, w2. rewrite Hdl, Hf2, Hd2, Hs2, Ht2, Hf, Hd, Hs, Ht.
    rewrite <- app_assoc. repeat split.
  - exists l, w1. repeat split; assumption.
Qed.

End RunFacts.

(** ** Base64: decoding undoes [encodebytes] *)

Section Base64Facts.

Import Base64.

Lemma index_of_char_of (x : sextet) : index_of (char_of x) = Some x.
Proof.
  destruct x as [[[[[[] []] []] []] []] []]; vm_compute; reflexivity.
Qed.

Lemma concat_step t ts : Csv.concat (t :: ts) = t +:+ Csv.concat ts.
Proof. reflexivity. Qed.

Lemma sextets_app a b : sextets (a +:+ b) = sextets a ++ sextets b.
Proof.
  induction a as [|c a IH]; [reflexivity|].
  rewrite append_cons. cbn [sextets]. destruct (index_of c); cbn;
    now rewrite IH.
Qed.

Lemma sextets_cons (x : sextet) s :
  sextets (String (char_of x) s) = x :: sextets s.
Proof. cbn [sextets]. now rewrite index_of_char_of. Qed.

Lemma decode4_encode3 x y z :
  let '(p, q, r, t) := encode3 x y z in decode4 p q r t = (x, y, z).
Proof.
  unfold encode3, decode4, bits, of_bits8.
  pose proof (Byte.of_bits_to_bits x) as Hx.
  pose proof (Byte.of_bits_to_bits y) as Hy.
  pose proof (Byte.of_bits_to_bits z) as Hz.
  destruct (Byte.to_bits x) as (x0 & x1 & x2 & x3 & x4 & x5 & x6 & x7).
  destruct (Byte.to_bits y) as (y0 & y1 & y2 & y3 & y4 & y5 & y6 & y7).
  destruct (Byte.to_bits z) as (z0 & z1 & z2 & z3 & z4 & z5 & z6 & z7).
  cbv beta iota zeta. now subst x y z.
Qed.

(** A last group of two bytes: the fourth sextet does not matter. *)
Lemma decode4_encode3_two x y :
  let '(p, q, r, _) := encode3 x y x00 in
  let '(x', y', _) := decode4 p q r zero6 in (x', y') = (x, y).
Proof.
  unfold encode3, decode4, bits, of_bits8, zero6.
  pose proof (Byte.of_bits_to_bits x) as Hx.
  pose proof (Byte.of_bits_to_bits y) as Hy.
  destruct (Byte.to_bits x) as (x0 & x1 & x2 & x3 & x4 & x5 & x6 & x7).
  destruct (Byte.to_bits y) as (y0 & y1 & y2 & y3 & y4 & y5 & y6 & y7).
  cbv beta iota zeta. now subst x y.
Qed.

(** A last group of one byte. *)
Lemma decode4_encode3_one x :
  let '(p, q, _, _) := encode3 x x00 x00 in
  let '(x', _, _) := decode4 p q zero6 zero6 in x' = x.
Proof.
  unfold encode3, decode4, bits, of_bits8, zero6.
  pose proof (Byte.of_bits_to_bits x) as Hx.
  destruct (Byte.to_bits x) as (x0 & x1 & x2 & x3 & x4 & x5 & x6 & x7).
  cbv beta iota zeta. now subst x.
Qed.

Lemma list_ind3 {A} (P : list A -> Prop) :
  P [] -> (forall x, P [x]) -> (forall x y, P [x; y]) ->
  (forall x y z r, P r -> P (x :: y :: z :: r)) ->
  forall l, P l.
Proof.
  intros H0 H1 H2 H3.
  assert (forall l, P l /\ (forall x, P (x :: l)) /\ (forall x y, P (x :: y :: l)))
    as H; [|intros l; apply H].
  induction l as [|a l (IH0 & IH1 & IH2)]; repeat split; auto.
Qed.

(** Whole groups decode on their own, whatever follows. *)
Lemma a2b_whole_groups data :
  (length data mod 3 = 0)%nat ->
  forall tail, a2b (sextets (b2a data) ++ tail) = data ++ a2b tail.
Proof.
  induction data as [|x|x y|x y z r IH] using list_ind3;
    try (cbn; discriminate); [reflexivity|].
  intros Hlen tail.
  assert (length r mod 3 = 0)%nat as Hr.
  { cbn [length] in Hlen.
    replace (S (S (S (length r)))) with (length r + 1 * 3)%nat in Hlen by lia.
    now rewrite Nat.Div0.mod_add in Hlen. }
  cbn [b2a]. pose proof (decode4_encode3 x y z) as Hd.
  destruct (encode3 x y z) as [[[p q] r'] t].
  rewrite !sextets_cons. cbn [app a2b]. rewrite Hd.
  cbn [app]. now rewrite IH.
Qed.

Lemma a2b_b2a data : a2b (sextets (b2a data)) = data.
Proof.
  induction data as [|x|x y|x y z r IH] using list_ind3.
  - reflexivity.
  - cbn [b2a]. pose proof (decode4_encode3_one x) as Hd.
    destruct (encode3 x x00 x00) as [[[p q] r'] t].
    rewrite !sextets_cons. cbn.
    destruct (decode4 p q zero6 zero6) as [[x' ?] ?]. now subst.
  - cbn [b2a]. pose proof (decode4_encode3_two x y) as Hd.
    destruct (encode3 x y x00) as [[[p q] r'] t].
    rewrite !sextets_cons. cbn.
    destruct (decode4 p q r' zero6) as [[x' y'] ?]. now injection Hd as -> ->.
  - cbn [b2a]. pose proof (decode4_encode3 x y z) as Hd.
    destruct (encode3 x y z) as [[[p q] r'] t].
    rewrite !sextets_cons. cbn [a2b]. rewrite Hd. now rewrite IH.
Qed.

Lemma sextets_b2a_base64 data :
  sextets (b2a_base64 data) = sextets (b2a data).
Proof.
  unfold b2a_base64. rewrite sextets_app. cbn. apply app_nil_r.
Qed.

Lemma pieces_nil n : pieces n [] = [].
Proof. now destruct n. Qed.

Lemma decode_pieces n : forall s,
  (length s <= n)%nat ->
  b64decode (Csv.concat (map b2a_base64 (pieces n s))) = s.
Proof.
  unfold b64decode.
  induction n as [|n IH]; intros s Hlen.
  - destruct s; [reflexivity|cbn in Hlen; lia].
  - destruct s as [|x s']; [reflexivity|].
    cbn [pieces map]. rewrite concat_step, sextets_app, sextets_b2a_base64.
    set (s := x :: s') in *.
    destruct (Nat.le_gt_cases (length s) MAXBINSIZE) as [Hshort|Hlong].
    + rewrite firstn_all2 by exact Hshort.
      rewrite skipn_all2 by exact Hshort.
      rewrite pieces_nil. cbn [map Csv.concat sextets].
      rewrite app_nil_r. apply a2b_b2a.
    + rewrite a2b_whole_groups.
      * rewrite IH; [apply firstn_skipn|].
        rewrite length_skipn. unfold MAXBINSIZE in *. lia.
      * rewrite length_firstn, Nat.min_l by lia. reflexivity.
Qed.

Lemma b64decode_encodebytes data : b64decode (encodebytes data) = data.
Proof. unfold encodebytes. now apply decode_pieces. Qed.

End Base64Facts.

(** ** CSV: the reader undoes the writer *)

Section CsvFacts.

Import Csv.

Lemma special_false c :
  special c = false ->
  Ascii.eqb c dquote = false /\ Ascii.eqb c ","%char = false /\
  Ascii.eqb c LF = false.
Proof.
  unfold special, LF, dquote. intros H.
  repeat (apply orb_false_iff in H; destruct H as [H ?]). auto.
Qed.

Lemma scan_in_field c row rest : ends_field c ->
  forall f fld, needs_quote f = false ->
  scan InField fld row (f +:+ String c rest) = finish c row (fld +:+ f) rest.
Proof.
  intros Hc. induction f as [|a f IH]; intros fld Hq.
  - rewrite append_nil_l, append_nil_r. unfold finish.
    destruct Hc as [-> | ->]; reflexivity.
  - cbn in Hq. apply orb_false_iff in Hq as [Ha Hq].
    destruct (special_false _ Ha) as (_ & Hcomma & Hlf).
    rewrite append_cons. cbn [scan]. rewrite Hcomma, Hlf.
    rewrite IH by exact Hq. unfold snoc.
    now rewrite append_assoc.
Qed.

Lemma scan_unquoted c row rest f : ends_field c ->
  needs_quote f = false -> f <> EmptyString ->
  scan AtStart EmptyString row (f +:+ String c rest) = finish c row f rest.
Proof.
  intros Hc Hq Hne. destruct f as [|a f]; [contradiction|].
  cbn in Hq. apply orb_false_iff in Hq as [Ha Hq].
  destruct (special_false _ Ha) as (Hdq & Hcomma & Hlf).
  rewrite append_cons. cbn [scan]. rewrite Hdq, Hcomma, Hlf.
  now rewrite scan_in_field.
Qed.

Lemma scan_in_quotes c row rest : ends_field c ->
  forall f fld,
  scan InQuotes fld row
       (double_quotes f +:+ String dquote (String c rest))
  = finish c row (fld +:+ f) rest.
Proof.
  intros Hc. induction f as [|a f IH]; intros fld.
  - rewrite append_nil_l, append_nil_r. unfold finish.
    destruct Hc as [-> | ->]; reflexivity.
  - cbn [double_quotes]. destruct (Ascii.eqb a dquote) eqn:Ea.
    + apply Ascii.eqb_eq in Ea as ->.
      rewrite !append_cons. cbn [scan]. rewrite Ascii.eqb_refl.
      rewrite IH. unfold snoc. now rewrite append_assoc.
    + rewrite append_cons. cbn [scan]. rewrite Ea.
      rewrite IH. unfold snoc. now rewrite append_assoc.
Qed.

Lemma scan_quoted c row rest f : ends_field c ->
  scan AtStart EmptyString row (quoted f +:+ String c rest)
  = finish c row f rest.
Proof.
  intros Hc. unfold quoted. rewrite append_cons. cbn [scan].
  rewrite Ascii.eqb_refl, append_assoc.
  rewrite append_cons, append_nil_l.
  now rewrite scan_in_quotes.
Qed.

(** A written field, read in a row that already has fields or that will
    not be blank. *)
Lemma scan_field c row rest f : ends_field c ->
  (f = EmptyString -> c = LF -> row <> []) ->
  scan AtStart EmptyString row (field f +:+ String c rest)
  = finish c row f rest.
Proof.
  intros Hc Hblank. unfold field.
  destruct (needs_quote f) eqn:Hq; [now apply scan_quoted|].
  destruct f as [|a f]; [|now apply scan_unquoted].
  rewrite append_nil_l. unfold finish.
  destruct Hc as [-> | ->]; [reflexivity|].
  cbn. destruct row; [now contradiction Hblank|reflexivity].
Qed.

Lemma scan_fields rest : forall fields row,
  fields <> [] -> (row = [] -> fields <> [EmptyString]) ->
  scan AtStart EmptyString row
       (Py.join "," (map field fields) +:+ String LF rest)
  = (row ++ fields) :: scan AtStart EmptyString [] rest.
Proof.
  induction fields as [|f fields IH]; intros row Hne Hblank; [contradiction|].
  destruct fields as [|g fields].
  - cbn [map Py.join]. rewrite scan_field; [reflexivity|now right|].
    intros -> _ ->. now apply Hblank.
  - change (map field (f :: g :: fields))
      with (field f :: field g :: map field fields).
    rewrite join_cons, !append_assoc, append_cons, append_nil_l.
    rewrite scan_field; [|now left|discriminate].
    unfold finish. cbn [Ascii.eqb Bool.eqb]. 
    change (field g :: map field fields) with (map field (g :: fields)).
    rewrite IH; [|discriminate|].
    + now rewrite <- app_assoc.
    + intros H. now destruct row.
Qed.

Lemma scan_writerow fields rest : fields <> [] ->
  scan AtStart EmptyString [] (writerow fields +:+ rest)
  = fields :: scan AtStart EmptyString [] rest.
Proof.
  intros Hne. unfold writerow. rewrite append_assoc, append_cons, append_nil_l.
  destruct (decide (fields = [EmptyString])) as [->|Hblank].
  - rewrite scan_quoted by now right. reflexivity.
  - assert ((match fields with
             | [EmptyString] => quoted EmptyString
             | _ => Py.join "," (map field fields)
             end) = Py.join "," (map field fields)) as ->.
    { destruct fields as [|[|] [|]]; try reflexivity. contradiction. }
    now rewrite scan_fields.
Qed.

Lemma scan_rows records :
  Forall (fun r => r <> []) records ->
  scan AtStart EmptyString [] (concat (map writerow records)) = records.
Proof.
  induction 1 as [|r records Hr _ IH]; [reflexivity|].
  cbn [map concat]. now rewrite scan_writerow, IH.
Qed.

Lemma parse_int_decimal z : parse_int (decimal z) = Some z.
Proof.
  unfold parse_int, decimal. rewrite NilZero.isi.
  - cbn. now rewrite DecimalZ.of_to.
  - destruct z; cbn; try discriminate.
    intros [= H]. now apply DecimalPos.Unsigned.to_uint_nonnil in H.
  - destruct z; cbn; try discriminate.
    intros [= H]. now apply DecimalPos.Unsigned.to_uint_nonnil in H.
Qed.

Lemma read_cell_text v : plain_cell v -> read_cell (cell_text v) = v.
Proof.
  destruct v as [|z|s]; cbn [plain_cell cell_text].
  - reflexivity.
  - intros _. unfold read_cell. rewrite parse_int_decimal.
    destruct (decimal z) eqn:E; [|reflexivity].
    pose proof (parse_int_decimal z) as H. rewrite E in H. discriminate.
  - intros [Hne Hp]. unfold read_cell. rewrite Hp.
    destruct s; [contradiction|reflexivity].
Qed.

Lemma read_row_text r :
  Forall plain_cell r -> map read_cell (map cell_text r) = r.
Proof.
  induction 1 as [|v r Hv _ IH]; [reflexivity|].
  cbn [map]. rewrite read_cell_text by assumption. f_equal. exact IH.
Qed.

Lemma read_rows_text rs :
  Forall (Forall plain_cell) rs ->
  map (map read_cell) (map (map cell_text) rs) = rs.
Proof.
  induction 1 as [|r rs Hr _ IH]; [reflexivity|].
  cbn [map]. rewrite read_row_text by assumption. f_equal. exact IH.
Qed.

Lemma read_csv_to_csv df :
  well_formed df -> Forall (Forall plain_cell) (rows df) ->
  read_csv (to_csv df) = df.
Proof.
  destruct df as [cols rs]. unfold well_formed. cbn [columns rows].
  intros [Hcols Hwide] Hplain. unfold read_csv, to_csv. cbn [columns rows].
  rewrite scan_rows.
  - f_equal. now apply read_rows_text.
  - constructor; [exact Hcols|]. clear Hplain.
    induction Hwide as [|r rs Hr _ IH]; cbn [map]; constructor.
    + destruct r; [|discriminate]. cbn in Hr. now destruct cols.
    + exact IH.
Qed.

End CsvFacts.

(** ** The whole run *)

Lemma queries_app evs1 evs2 : queries (evs1 ++ evs2) = queries evs1 ++ queries evs2.
Proof. apply omap_app. Qed.

Lemma queries_of_send_events env cfg rcpts file_path envl content :
  queries (send_events env cfg rcpts file_path envl content) = [].
Proof.
  unfold send_events, deliver_events, connect_event.
  destruct content, (smtp_port cfg =? 465), (smtp_connect_raises env),
    (starttls_raises env), (login_raises env); reflexivity.
Qed.

Lemma queries_of_fetch_events env present :
  queries (fetch_events env present) =
    if succeeds (mysql_connect_raises env) then [sql_query] else [].
Proof.
  unfold fetch_events, query_events, query_result, save_events.
  destruct (mysql_connect_raises env), (db_link_survives env),
    (read_sql_answer env), (fs_write_raises env), present; reflexivity.
Qed.

(** The query text does not depend on the run: whatever [kwargs] holds, a
    DAG run that reaches the database sends [sql_query], whose date filters
    are the literal of the source. *)
Lemma every_run_sends_the_same_query env cfg kwargs w :
  let '(_, _, w') := mysql_to_csv_and_email_dag env cfg kwargs w in
  queries (emitted w w') =
    if succeeds (mysql_connect_raises env) then [sql_query] else [].
Proof.
  unfold mysql_to_csv_and_email_dag.
  destruct (fetch_run env cfg {| conn := None |} w)
    as (l1 & w1 & Heq & _ & _ & _ & Ht).
  rewrite Heq.
  assert (queries (emitted w w1) =
            if succeeds (mysql_connect_raises env) then [sql_query] else [])
    as Hq1 by (rewrite (emitted_app _ _ _ Ht); apply queries_of_fetch_events).
  destruct (match query_result env with
            | Ok _ => save_result env
            | Raise e => Raise e
            end) as [csv_file|e]; [|exact Hq1].
  destruct (send_run env cfg csv_file kwargs {| server := None |} (interfere env w1))
    as (l2 & w2 & Heq2 & _ & _ & _ & Ht2).
  rewrite Heq2. cbn [interfere trace] in Ht2. rewrite Ht, <- app_assoc in Ht2.
  assert (queries (emitted w w2) =
            if succeeds (mysql_connect_raises env) then [sql_query] else [])
    as Hq2.
  { rewrite (emitted_app _ _ _ Ht2), queries_app, queries_of_fetch_events,
      queries_of_send_events. apply app_nil_r. }
  destruct (match files (interfere env w1) !! csv_file with
            | Some _ => deliver_result env cfg
            | None => Raise FileNotFoundError
            end); exact Hq2.
Qed.

Lemma smtp_of_fetch_events env present :
  filter is_smtp (fetch_events env present) = [].
Proof.
  unfold fetch_events, query_events, query_result, save_events.
  destruct (mysql_connect_raises env), (db_link_survives env),
    (read_sql_answer env), (fs_write_raises env), present; reflexivity.
Qed.

(** When the artifact is gone by the time the send task starts (another
    process removed it after the fetch task wrote it), the run ends with the
    send task failed on [FileNotFoundError] and without any SMTP call. *)
Lemma dag_with_artifact_removed env cfg kwargs w df :
  query_result env = Ok df -> fs_write_raises env = None ->
  (forall fs, between_tasks env fs !! CSV_FILE_PATH = None) ->
  let '(fetch_state, send_state, w') :=
    mysql_to_csv_and_email_dag env cfg kwargs w in
  fetch_state = success /\ send_state = failed FileNotFoundError /\
  filter is_smtp (emitted w w') = [].
Proof.
  intros Hq Hw Hgone. unfold mysql_to_csv_and_email_dag.
  destruct (fetch_run env cfg {| conn := None |} w)
    as (l1 & w1 & Heq & _ & _ & _ & Ht).
  rewrite Heq, Hq. unfold save_result. rewrite Hw.
  destruct (send_run env cfg CSV_FILE_PATH kwargs {| server := None |}
              (interfere env w1)) as (l2 & w2 & Heq2 & _ & _ & _ & Ht2).
  rewrite Heq2. cbn [interfere trace files] in *.
  rewrite Hgone in *. rewrite Ht, <- app_assoc in Ht2.
  rewrite (emitted_app _ _ _ Ht2), filter_app, smtp_of_fetch_events.
  repeat split.
Qed.

Lemma date_filters_of_sql_query :
  date_filters sql_query =
    [("gvd.stage_2_completed_at", "2025-08-04");
     ("gvd.stage_1_completed_at", "2025-08-04");
     ("gvd.stage_3_completed_at", "2025-08-04")].
Proof. vm_compute. reflexivity. Qed.

(** ** The claims *)

(** C1 (the code departs from it): the date of the query filter should be
    the run date of the trigger.  On a run triggered for 2025-08-05 the one
    query sent to the database compares all three timestamp columns with the
    literal 2025-08-04, while the subject of the message sent in the same
    run carries 2025-08-05. *)
Theorem C1_query_date_is_a_literal :
  let '(_, _, w) :=
    mysql_to_csv_and_email_dag Sample.env_ok Sample.cfg
      (Sample.kwargs "2025-08-05" "a@example.com") (fresh_world ∅) in
  map date_filters (queries (trace w)) =
    [[("gvd.stage_2_completed_at", "2025-08-04");
      ("gvd.stage_1_completed_at", "2025-08-04");
      ("gvd.stage_3_completed_at", "2025-08-04")]] /\
  sent_subjects (trace w) = ["Daily Leads Report - 2025-08-05"].
Proof. vm_compute. split; reflexivity. Qed.

Lemma sendmail_in_deliver_events env cfg rcpts0 msg0 sender rcpts msg ok :
  In (Sendmail sender rcpts msg ok) (deliver_events env cfg rcpts0 msg0) ->
  sender = envelope_from cfg /\ rcpts = rcpts0 /\ msg = msg0.
Proof.
  unfold deliver_events, connect_event.
  destruct (smtp_port cfg =? 465), (smtp_connect_raises env),
    (starttls_raises env), (login_raises env); cbn;
    intuition (try discriminate);
    match goal with H : Sendmail _ _ _ _ = Sendmail _ _ _ _ |- _ =>
      now injection H as <- <- <- end.
Qed.

Lemma sendmail_in_send_events env cfg rcpts0 file_path envl content
      sender rcpts msg ok :
  In (Sendmail sender rcpts msg ok)
     (send_events env cfg rcpts0 file_path envl content) ->
  rcpts = rcpts0 /\
  exists data, content = Some data /\
               msg = attach (attachment_part data file_path) envl.
Proof.
  unfold send_events. destruct content as [data|]; cbn.
  - intros [H|H]; [discriminate|].
    apply sendmail_in_deliver_events in H as (_ & -> & ->). eauto.
  - intros [H|[]]. discriminate.
Qed.

(** C2: for every non-empty comma-separated recipients string, the list the
    send task passes to [sendmail] is the list of its comma-separated
    pieces, each with the surrounding whitespace trimmed, in the same order
    and in the same number, one more than the commas of the string; nothing
    is dropped or merged. *)
Theorem C2_recipients_are_the_trimmed_pieces
        env cfg file_path kwargs l w r l' w' sender rcpts msg ok :
  recipient_emails cfg kwargs <> EmptyString ->
  send_email_with_attachment env cfg file_path kwargs l w = (r, l', w') ->
  In (Sendmail sender rcpts msg ok) (emitted w w') ->
  rcpts = map Py.strip (Py.split "," (recipient_emails cfg kwargs)) /\
  RecipientsSpec.parsed (recipient_emails cfg kwargs) rcpts /\
  (forall addrs,
     RecipientsSpec.parsed (recipient_emails cfg kwargs) addrs ->
     addrs = rcpts) /\
  length rcpts = S (Py.count "," (recipient_emails cfg kwargs)).
Proof.
  intros _ Hrun Hin.
  destruct (send_run env cfg file_path kwargs l w)
    as (l1 & w1 & Heq & _ & _ & _ & Ht).
  rewrite Heq in Hrun. injection Hrun as _ _ <-.
  rewrite (emitted_app _ _ _ Ht) in Hin.
  apply sendmail_in_send_events in Hin as (-> & _).
  split; [reflexivity|]. split; [apply recipients_parsed|].
  split; [apply parsed_unique|apply recipients_length].
Qed.

Lemma C2_witness :
  let kwargs := Sample.kwargs "2025-08-04" " a@x.com ,b@y.org,  a@x.com" in
  let rcpts := ["a@x.com"; "b@y.org"; "a@x.com"] in
  rcpts = map Py.strip (Py.split "," (recipient_emails Sample.cfg kwargs)) /\
  RecipientsSpec.parsed (recipient_emails Sample.cfg kwargs) rcpts /\
  (forall addrs,
     RecipientsSpec.parsed (recipient_emails Sample.cfg kwargs) addrs ->
     addrs = rcpts) /\
  length rcpts = S (Py.count "," (recipient_emails Sample.cfg kwargs)).
Proof.
  intros kwargs rcpts.
  pose (run := send_email_with_attachment Sample.env_ok Sample.cfg
                 CSV_FILE_PATH kwargs {| server := None |}
                 (fresh_world Sample.disk)).
  apply (C2_recipients_are_the_trimmed_pieces
           Sample.env_ok Sample.cfg CSV_FILE_PATH kwargs
           {| server := None |} (fresh_world Sample.disk)
           (fst (fst run)) (snd (fst run)) (snd run)
           (envelope_from Sample.cfg) rcpts
           (attach (attachment_part Sample.artifact CSV_FILE_PATH)
                   (envelope Sample.cfg kwargs)) true).
  - vm_compute. discriminate.
  - vm_compute. reflexivity.
  - vm_compute. tauto.
Defined.

(** C3, as claimed, fails: with two commas in a row the send task hands the
    transport an empty recipient. *)
Lemma C3_empty_recipient_reaches_the_transport :
  let '(_, _, w) :=
    send_email_with_attachment Sample.env_ok Sample.cfg CSV_FILE_PATH
      (Sample.kwargs "2025-08-04" "a@x.com,,b@y.org")
      {| server := None |} (fresh_world Sample.disk) in
  sent_recipients (trace w) = [["a@x.com"; EmptyString; "b@y.org"]].
Proof. vm_compute. reflexivity. Qed.

(** C3, amended: every address handed to [sendmail] is one comma-separated
    piece of the recipients string, trimmed: it neither starts nor ends with
    whitespace, and it is empty exactly when its piece is empty or all
    whitespace.  No piece is filtered out. *)
Theorem C3_address_is_empty_iff_its_piece_is_blank
        env cfg file_path kwargs l w r l' w' sender rcpts msg ok :
  send_email_with_attachment env cfg file_path kwargs l w = (r, l', w') ->
  In (Sendmail sender rcpts msg ok) (emitted w w') ->
  Forall2 (fun piece addr =>
             RecipientsSpec.trimmed_of piece addr /\
             (addr = EmptyString <-> Py.all_space piece = true))
          (Py.split "," (recipient_emails cfg kwargs)) rcpts.
Proof.
  intros Hrun Hin.
  destruct (send_run env cfg file_path kwargs l w)
    as (l1 & w1 & Heq & _ & _ & _ & Ht).
  rewrite Heq in Hrun. injection Hrun as _ _ <-.
  rewrite (emitted_app _ _ _ Ht) in Hin.
  apply sendmail_in_send_events in Hin as (-> & _).
  unfold recipients_list.
  induction (Py.split "," (recipient_emails cfg kwargs)); constructor;
    [split; [apply strip_trimmed|apply strip_empty_iff]|assumption].
Qed.

Lemma C3_witness :
  let kwargs := Sample.kwargs "2025-08-04" "a@x.com, ,b@y.org" in
  Forall2 (fun piece addr =>
             RecipientsSpec.trimmed_of piece addr /\
             (addr = EmptyString <-> Py.all_space piece = true))
          (Py.split "," (recipient_emails Sample.cfg kwargs))
          ["a@x.com"; EmptyString; "b@y.org"].
Proof.
  intros kwargs.
  pose (run := send_email_with_attachment Sample.env_ok Sample.cfg
                 CSV_FILE_PATH kwargs {| server := None |}
                 (fresh_world Sample.disk)).
  apply (C3_address_is_empty_iff_its_piece_is_blank
           Sample.env_ok Sample.cfg CSV_FILE_PATH kwargs
           {| server := None |} (fresh_world Sample.disk)
           (fst (fst run)) (snd (fst run)) (snd run)
           (envelope_from Sample.cfg) ["a@x.com"; EmptyString; "b@y.org"]
           (attach (attachment_part Sample.artifact CSV_FILE_PATH)
                   (envelope Sample.cfg kwargs)) true).
  - vm_compute. reflexivity.
  - vm_compute. tauto.
Defined.

(** C4, as claimed, fails: a table with an empty text cell and the table
    with a null in its place are written as the same file, so reading the
    file back gives the second table for both. *)
Lemma C4_empty_text_reads_back_as_null :
  Csv.to_csv Sample.blank_text = Csv.to_csv Sample.null_cell /\
  Sample.blank_text <> Sample.null_cell /\
  (let '(_, _, w) :=
     save_csv Sample.env_ok Sample.blank_text tt (fresh_world ∅) in
   read_artifact w = Some Sample.null_cell).
Proof.
  split; [vm_compute; reflexivity|]. split; [discriminate|].
  vm_compute. reflexivity.
Qed.

Lemma string_of_artifact_bytes df :
  String.string_of_list_byte (artifact_bytes df) = Csv.to_csv df.
Proof. apply String.string_of_list_byte_of_string. Qed.

(** C4, amended: for every table with at least one column, rows as wide as
    the header, and no text cell that is empty or reads as a number, writing
    it to the artifact path (header row, then one row per data row, numbers
    in decimal, nulls as empty fields, fields quoted where the format asks
    for it) and reading the file back gives the same table. *)
Theorem C4_plain_tables_round_trip
        {L} env (df : Csv.DataFrame) (l : L) (w : World) :
  fs_write_raises env = None ->
  Csv.well_formed df ->
  Forall (Forall Csv.plain_cell) (Csv.rows df) ->
  let '(_, _, w') := save_csv env df l w in
  read_artifact w' = Some df.
Proof.
  intros Hok Hwf Hplain.
  destruct (save_csv_run env df l w) as (w' & Heq & Hf & _).
  rewrite Heq. unfold read_artifact, save_files in *.
  rewrite Hok in Hf. rewrite Hf, lookup_insert_eq.
  cbn [fmap option_fmap option_map].
  now rewrite string_of_artifact_bytes, read_csv_to_csv.
Qed.

Lemma C4_witness :
  let '(_, _, w') :=
    save_csv Sample.env_ok Sample.leads tt (fresh_world Sample.disk) in
  read_artifact w' = Some Sample.leads.
Proof.
  apply (C4_plain_tables_round_trip
           Sample.env_ok Sample.leads tt (fresh_world Sample.disk)).
  - reflexivity.
  - split; [discriminate|]. repeat constructor.
  - repeat constructor.
Defined.

(** C5: when the fetch task writes the artifact twice, with results [r1]
    then [r2], each run checks for a file at the path, removes it if there
    is one, and only then writes; the second run finds the file of the
    first, removes it, and leaves a file that holds [r2] alone, the same
    bytes a single write of [r2] produces. *)
Theorem C5_second_write_replaces_the_first
        env1 env2 cfg l w r1 r2 :
  query_result env1 = Ok r1 -> fs_write_raises env1 = None ->
  query_result env2 = Ok r2 -> fs_write_raises env2 = None ->
  let '(_, l1, w1) := fetch_mysql_data_and_save_as_csv env1 cfg l w in
  let '(_, _, w2) := fetch_mysql_data_and_save_as_csv env2 cfg l1 w1 in
  files w2 !! CSV_FILE_PATH = Some (artifact_bytes r2) /\
  files w2 = <[CSV_FILE_PATH := artifact_bytes r2]> (files w) /\
  filter is_fs (emitted w w1) =
    FsExists CSV_FILE_PATH (bool_decide (is_Some (files w !! CSV_FILE_PATH)))
    :: (if bool_decide (is_Some (files w !! CSV_FILE_PATH))
        then [FsRemove CSV_FILE_PATH true] else [])
    ++ [FsWrite CSV_FILE_PATH (artifact_bytes r1) true] /\
  filter is_fs (emitted w1 w2) =
    [FsExists CSV_FILE_PATH true; FsRemove CSV_FILE_PATH true;
     FsWrite CSV_FILE_PATH (artifact_bytes r2) true].
Proof.
  intros H1 Hw1 H2 Hw2.
  destruct (fetch_run env1 cfg l w) as (l1 & w1 & Heq1 & Hf1 & _ & _ & Ht1).
  rewrite Heq1.
  destruct (fetch_run env2 cfg l1 w1) as (l2 & w2 & Heq2 & Hf2 & _ & _ & Ht2).
  rewrite Heq2.
  rewrite (emitted_app _ _ _ Ht1), (emitted_app _ _ _ Ht2).
  unfold save_files in *. rewrite H1, Hw1 in Hf1. rewrite H2, Hw2 in Hf2.
  rewrite Hf2, Hf1, insert_insert_eq, !lookup_insert_eq.
  unfold fetch_events, query_events, save_events, query_result in *.
  rewrite H1, H2, Hw1, Hw2.
  destruct (mysql_connect_raises env1); [discriminate|].
  destruct (mysql_connect_raises env2); [discriminate|].
  destruct (db_link_survives env1), (db_link_survives env2),
    (bool_decide (is_Some (files w !! CSV_FILE_PATH)));
    cbn; repeat split.
Qed.

Lemma C5_witness :
  let '(_, l1, w1) :=
    fetch_mysql_data_and_save_as_csv Sample.env_ok Sample.cfg
      {| conn := None |} (fresh_world Sample.disk) in
  let '(_, _, w2) :=
    fetch_mysql_data_and_save_as_csv Sample.env_next_day Sample.cfg l1 w1 in
  files w2 !! CSV_FILE_PATH = Some (artifact_bytes Sample.leads_next_day) /\
  files w2 = <[CSV_FILE_PATH := artifact_bytes Sample.leads_next_day]>
               (files (fresh_world Sample.disk)) /\
  filter is_fs (emitted (fresh_world Sample.disk) w1) =
    FsExists CSV_FILE_PATH
      (bool_decide (is_Some (files (fresh_world Sample.disk) !! CSV_FILE_PATH)))
    :: (if bool_decide
             (is_Some (files (fresh_world Sample.disk) !! CSV_FILE_PATH))
        then [FsRemove CSV_FILE_PATH true] else [])
    ++ [FsWrite CSV_FILE_PATH (artifact_bytes Sample.leads) true] /\
  filter is_fs (emitted w1 w2) =
    [FsExists CSV_FILE_PATH true; FsRemove CSV_FILE_PATH true;
     FsWrite CSV_FILE_PATH (artifact_bytes Sample.leads_next_day) true].
Proof.
  apply (C5_second_write_replaces_the_first
           Sample.env_ok Sample.env_next_day Sample.cfg
           {| conn := None |} (fresh_world Sample.disk)
           Sample.leads Sample.leads_next_day); reflexivity.
Defined.

Lemma decoded_attachment data file_path :
  decoded_payload (attachment_part data file_path) = data.
Proof.
  unfold decoded_payload, attachment_part, add_header, encode_base64,
    set_payload, MIMEBase, get_payload_bytes.
  cbn [part_payload part_headers content_type app existsb fst snd].
  replace (("Content-Transfer-Encoding" =? "Content-Transfer-Encoding")%string)
    with true by (vm_compute; reflexivity).
  replace (("base64" =? "base64")%string) with true by (vm_compute; reflexivity).
  cbn [andb orb]. apply b64decode_encodebytes.
Qed.



(** C7: when no file exists at the path the send task is given, the task
    raises [FileNotFoundError] (the handler re-raises it), its only external
    call is the failed read, no SMTP call is made and the transport link is
    left as it was. *)
Theorem C7_missing_artifact_raises_before_any_connection
        env cfg file_path kwargs l w :
  files w !! file_path = None ->
  let '(r, _, w') := send_email_with_attachment env cfg file_path kwargs l w in
  r = Raise FileNotFoundError /\
  emitted w w' = [FsRead file_path false] /\
  filter is_smtp (emitted w w') = [] /\
  smtp_link w' = smtp_link w.
Proof.
  intros Hnone.
  destruct (send_run env cfg file_path kwargs l w)
    as (l1 & w1 & Heq & _ & _ & Hs & Ht).
  rewrite Heq, (emitted_app _ _ _ Ht), Hs, Hnone. cbn. repeat split.
Qed.

Lemma C7_witness :
  let '(r, _, w') :=
    send_email_with_attachment Sample.env_ok Sample.cfg CSV_FILE_PATH
      (Sample.kwargs "2025-08-04" "a@x.com") {| server := None |}
      (fresh_world ∅) in
  r = Raise FileNotFoundError /\
  emitted (fresh_world ∅) w' = [FsRead CSV_FILE_PATH false] /\
  filter is_smtp (emitted (fresh_world ∅) w') = [] /\
  smtp_link w' = smtp_link (fresh_world ∅).
Proof.
  apply (C7_missing_artifact_raises_before_any_connection
           Sample.env_ok Sample.cfg CSV_FILE_PATH
           (Sample.kwargs "2025-08-04" "a@x.com") {| server := None |}
           (fresh_world ∅)).
  reflexivity.
Defined.

(** C8: the way the delivery connects depends on the configured port alone.
    It makes one connection attempt: [SMTP_SSL] when the port is 465, plain
    [SMTP] for every other port.  On port 465 there is no [starttls]; on any
    other port a connection that succeeded is followed by [starttls], and
    [login] is only ever called on a channel under TLS. *)
Theorem C8_security_mode_follows_the_port env cfg msg kwargs l w :
  let '(_, _, w') := deliver env cfg msg kwargs l w in
  filter is_smtp_connect (emitted w w') =
    [if smtp_port cfg =? 465
     then SmtpSSL (smtp_host cfg) (smtp_port cfg) (succeeds (smtp_connect_raises env))
     else SmtpPlain (smtp_host cfg) (smtp_port cfg)
                    (succeeds (smtp_connect_raises env))] /\
  filter is_starttls (emitted w w') =
    (if (smtp_port cfg =? 465) || negb (succeeds (smtp_connect_raises env))
     then []
     else [StartTLS (succeeds (starttls_raises env))]) /\
  login_under_tls false (emitted w w') = true.
Proof.
  destruct (deliver_run env cfg msg kwargs l w)
    as (l1 & w1 & Heq & _ & _ & _ & Ht).
  rewrite Heq, (emitted_app _ _ _ Ht).
  unfold deliver_events, connect_event.
  destruct (smtp_port cfg =? 465), (smtp_connect_raises env),
    (starttls_raises env), (login_raises env), (sendmail_raises env);
    cbn; repeat split.
Qed.


(** C10: when connecting to the database or running the query raises, the
    fetch task raises the same exception without any file-system call, the
    files are exactly as before (the artifact of an earlier run included),
    and the send task does not run: no file is read and no SMTP call is
    made. *)
Theorem C10_failed_extraction_touches_nothing env cfg kwargs w e :
  mysql_connect_raises env = Some e \/
  (mysql_connect_raises env = None /\ read_sql_answer env = Raise e) ->
  let '(fetch_state, send_state, w') :=
    mysql_to_csv_and_email_dag env cfg kwargs w in
  fetch_state = failed e /\ send_state = upstream_failed /\
  files w' = files w /\
  filter is_fs (emitted w w') = [] /\
  filter is_smtp (emitted w w') = [].
Proof.
  intros Hfail.
  assert (query_result env = Raise e) as Hq.
  { unfold query_result. destruct Hfail as [-> | [-> ->]]; reflexivity. }
  unfold mysql_to_csv_and_email_dag.
  destruct (fetch_run env cfg {| conn := None |} w)
    as (l1 & w1 & Heq & Hf & _ & _ & Ht).
  rewrite Heq, Hq. rewrite Hq in Hf.
  rewrite (emitted_app _ _ _ Ht).
  unfold fetch_events, query_events. rewrite Hq.
  destruct (mysql_connect_raises env), (db_link_survives env);
    cbn; repeat split; assumption.
Qed.

Lemma C10_witness :
  let '(fetch_state, send_state, w') :=
    mysql_to_csv_and_email_dag Sample.env_db_down Sample.cfg
      (Sample.kwargs "2025-08-04" "a@x.com") (fresh_world Sample.disk) in
  fetch_state = failed MySQLError /\ send_state = upstream_failed /\
  files w' = files (fresh_world Sample.disk) /\
  filter is_fs (emitted (fresh_world Sample.disk) w') = [] /\
  filter is_smtp (emitted (fresh_world Sample.disk) w') = [].
Proof.
  apply (C10_failed_extraction_touches_nothing
           Sample.env_db_down Sample.cfg
           (Sample.kwargs "2025-08-04" "a@x.com") (fresh_world Sample.disk)
           MySQLError).
  left. reflexivity.
Defined.


(** ** Beyond the claims *)

Lemma dag_run env cfg kwargs w :
  exists w',
    mysql_to_csv_and_email_dag env cfg kwargs w =
      (fst (dag_states env cfg (files w)), snd (dag_states env cfg (files w)), w') /\
    files w' = dag_files env (files w) /\
    db_link w' = query_link env (db_link w) /\
    trace w' = trace w ++ dag_events env cfg kwargs (files w).
Proof.
  unfold mysql_to_csv_and_email_dag, dag_states, dag_files, dag_events.
  destruct (fetch_run env cfg {| conn := None |} w)
    as (l1 & w1 & Heq & Hf & Hs & Hd & Ht).
  rewrite Heq. unfold save_result.
  destruct (query_result env) as [df|e].
  2: { exists w1. rewrite app_nil_r. auto. }
  unfold save_files in *.
  destruct (fs_write_raises env) as [e|].
  { exists w1. rewrite app_nil_r. auto. }
  destruct (send_run env cfg CSV_FILE_PATH kwargs {| server := None |}
              (interfere env w1)) as (l2 & w2 & Heq2 & Hf2 & Hd2 & Hs2 & Ht2).
  rewrite Heq2. cbn [interfere files trace db_link smtp_link] in *.
  rewrite Hf in *. exists w2.
  assert (trace w2 = trace w ++ fetch_events env
            (bool_decide (is_Some (files w !! CSV_FILE_PATH)))
            ++ send_events env cfg
                 (recipients_list (recipient_emails cfg kwargs)) CSV_FILE_PATH
                 (envelope cfg kwargs)
                 (between_tasks env (<[CSV_FILE_PATH:=artifact_bytes df]> (files w))
                    !! CSV_FILE_PATH)) as Htr
    by (rewrite Ht2, Ht, <- app_assoc; reflexivity).
  destruct (between_tasks env (<[CSV_FILE_PATH:=artifact_bytes df]> (files w))
              !! CSV_FILE_PATH) as [data|];
    [destruct (deliver_result env cfg)|]; cbn [fst snd];
    (split; [reflexivity|]); (split; [assumption|]);
    (split; [congruence|]); exact Htr.
Qed.

Lemma sendmail_in_send_events_full env cfg rcpts0 file_path envl content
      sender rcpts msg ok :
  In (Sendmail sender rcpts msg ok)
     (send_events env cfg rcpts0 file_path envl content) ->
  sender = envelope_from cfg /\ rcpts = rcpts0 /\
  ok = succeeds (sendmail_raises env) /\
  exists data, content = Some data /\
               msg = attach (attachment_part data file_path) envl.
Proof.
  unfold send_events. destruct content as [data|]; cbn.
  - intros [H|H]; [discriminate|].
    assert (ok = succeeds (sendmail_raises env)) as Hok.
    { revert H. unfold deliver_events, connect_event.
      destruct (smtp_port cfg =? 465), (smtp_connect_raises env),
        (starttls_raises env), (login_raises env); cbn;
        intuition (try discriminate);
        match goal with H : Sendmail _ _ _ _ = Sendmail _ _ _ _ |- _ =>
          now injection H end. }
    apply sendmail_in_deliver_events in H as (-> & -> & ->). eauto 6.
  - intros [H|[]]. discriminate.
Qed.





(** X3: when the mail server rejects the credentials (the connection was
    made and, off port 465, upgraded), the send task raises what [login]
    raised, never calls [sendmail], and still quits the connection once, as
    its last call. *)
Theorem X3_rejected_login_sends_nothing env cfg file_path kwargs l w data e :
  files w !! file_path = Some data ->
  smtp_connect_raises env = None ->
  (smtp_port cfg =? 465) || succeeds (starttls_raises env) = true ->
  login_raises env = Some e ->
  quit_raises env = None ->
  let '(r, _, w') := send_email_with_attachment env cfg file_path kwargs l w in
  r = Raise e /\
  filter is_sendmail (emitted w w') = [] /\
  In (Login (smtp_user cfg) (smtp_password cfg) false) (emitted w w') /\
  filter is_quit (emitted w w') = [Quit] /\
  last (emitted w w') = Some Quit /\
  smtp_link w' = Closed.
Proof.
  intros Hfile Hconn Htls Hlogin Hquit.
  destruct (send_run env cfg file_path kwargs l w)
    as (l1 & w1 & Heq & _ & _ & Hs & Ht).
  rewrite Heq, (emitted_app _ _ _ Ht), Hs, Hfile.
  unfold send_events, deliver_events, deliver_result, deliver_link,
    connect_event, first_raise.
  rewrite Hconn, Hlogin, Hquit.
  destruct (smtp_port cfg =? 465), (starttls_raises env), (sendmail_raises env);
    try discriminate; cbn; intuition.
Qed.

Lemma X3_witness :
  let '(r, _, w') :=
    send_email_with_attachment Cases.env_bad_password Sample.cfg CSV_FILE_PATH
      (Sample.kwargs "2025-08-04" "a@x.com") {| server := None |}
      (fresh_world Sample.disk) in
  r = Raise SMTPAuthenticationError /\
  filter is_sendmail (emitted (fresh_world Sample.disk) w') = [] /\
  In (Login (smtp_user Sample.cfg) (smtp_password Sample.cfg) false)
     (emitted (fresh_world Sample.disk) w') /\
  filter is_quit (emitted (fresh_world Sample.disk) w') = [Quit] /\
  last (emitted (fresh_world Sample.disk) w') = Some Quit /\
  smtp_link w' = Closed.
Proof.
  apply (X3_rejected_login_sends_nothing
           Cases.env_bad_password Sample.cfg CSV_FILE_PATH
           (Sample.kwargs "2025-08-04" "a@x.com") {| server := None |}
           (fresh_world Sample.disk) Sample.artifact SMTPAuthenticationError);
    reflexivity.
Defined.

(** X4: what [quit] raises in the [finally] block replaces the outcome of
    the delivery.  Once the connection is made, a failing [quit] makes the
    send task raise that exception, also when the mail had been accepted by
    the server (which happens exactly when [starttls], [login] and
    [sendmail] all succeeded). *)
Theorem X4_failing_quit_decides_the_outcome env cfg file_path kwargs l w data e :
  files w !! file_path = Some data ->
  smtp_connect_raises env = None ->
  quit_raises env = Some e ->
  let '(r, _, w') := send_email_with_attachment env cfg file_path kwargs l w in
  r = Raise e /\
  smtp_link w' = Closed /\
  existsb accepted (emitted w w') =
    ((smtp_port cfg =? 465) || succeeds (starttls_raises env))
    && succeeds (login_raises env) && succeeds (sendmail_raises env).
Proof.
  intros Hfile Hconn Hquit.
  destruct (send_run env cfg file_path kwargs l w)
    as (l1 & w1 & Heq & _ & _ & Hs & Ht).
  rewrite Heq, (emitted_app _ _ _ Ht), Hs, Hfile.
  unfold send_events, deliver_events, deliver_result, deliver_link,
    connect_event.
  rewrite Hconn, Hquit.
  destruct (smtp_port cfg =? 465), (starttls_raises env), (login_raises env),
    (sendmail_raises env); cbn; intuition.
Qed.

Lemma X4_witness :
  let '(r, _, w') :=
    send_email_with_attachment Cases.env_quit_fails Sample.cfg CSV_FILE_PATH
      (Sample.kwargs "2025-08-04" "a@x.com") {| server := None |}
      (fresh_world Sample.disk) in
  r = Raise SMTPServerDisconnected /\
  smtp_link w' = Closed /\
  existsb accepted (emitted (fresh_world Sample.disk) w') =
    ((smtp_port Sample.cfg =? 465)
     || succeeds (starttls_raises Cases.env_quit_fails))
    && succeeds (login_raises Cases.env_quit_fails)
    && succeeds (sendmail_raises Cases.env_quit_fails).
Proof.
  apply (X4_failing_quit_decides_the_outcome
           Cases.env_quit_fails Sample.cfg CSV_FILE_PATH
           (Sample.kwargs "2025-08-04" "a@x.com") {| server := None |}
           (fresh_world Sample.disk) Sample.artifact SMTPServerDisconnected);
    reflexivity.
Defined.

Ltac dag_cases env cfg :=
  unfold dag_states, dag_events, dag_files, fetch_events, query_events,
    query_result, query_link, save_events, save_files, send_events,
    deliver_events, deliver_result, first_raise, connect_event in *;
  destruct (mysql_connect_raises env), (read_sql_answer env),
    (db_link_survives env), (fs_write_raises env).

(** X5: a DAG run whose send task ends in success did all of its work
    once: the fetch task succeeded, the result of the query was written to
    the artifact path, and exactly one mail was handed to the server, which
    took it, for the recipients of the run. *)
Theorem X5_a_successful_run_sent_one_mail env cfg kwargs w fetch_state w' :
  mysql_to_csv_and_email_dag env cfg kwargs w = (fetch_state, success, w') ->
  fetch_state = success /\
  exists df msg,
    read_sql_answer env = Ok df /\
    filter is_write (emitted w w') =
      [FsWrite CSV_FILE_PATH (artifact_bytes df) true] /\
    filter is_sendmail (emitted w w') =
      [Sendmail (envelope_from cfg)
                (recipients_list (recipient_emails cfg kwargs)) msg true] /\
    last (emitted w w') = Some Quit.
Proof.
  intros Hrun.
  destruct (dag_run env cfg kwargs w) as (w1 & Heq & _ & _ & Ht).
  rewrite Heq in Hrun. injection Hrun as H1 H2 <-.
  rewrite (emitted_app _ _ _ Ht). clear Heq Ht.
  revert H1 H2. dag_cases env cfg; cbn [fst snd]; try discriminate.
  all: match goal with
       | |- context [between_tasks ?E ?fs !! CSV_FILE_PATH] =>
           destruct (between_tasks E fs !! CSV_FILE_PATH) as [data|]
       end; try discriminate.
  all: destruct (smtp_port cfg =? 465), (smtp_connect_raises env),
         (starttls_raises env), (login_raises env), (sendmail_raises env),
         (quit_raises env); cbn; try discriminate.
  all: intros <- _; split; [reflexivity|]; do 2 eexists;
       (split; [reflexivity|]);
       destruct (bool_decide (is_Some (files w !! CSV_FILE_PATH)));
       cbn; repeat split.
Qed.

Lemma X5_witness :
  let kwargs := Sample.kwargs "2025-08-04" "a@x.com" in
  let run := mysql_to_csv_and_email_dag Sample.env_ok Sample.cfg kwargs
               (fresh_world ∅) in
  success = success /\
  exists df msg,
    read_sql_answer Sample.env_ok = Ok df /\
    filter is_write (emitted (fresh_world ∅) (snd run)) =
      [FsWrite CSV_FILE_PATH (artifact_bytes df) true] /\
    filter is_sendmail (emitted (fresh_world ∅) (snd run)) =
      [Sendmail (envelope_from Sample.cfg)
                (recipients_list (recipient_emails Sample.cfg kwargs)) msg true] /\
    last (emitted (fresh_world ∅) (snd run)) = Some Quit.
Proof.
  intros kwargs run.
  apply (X5_a_successful_run_sent_one_mail
           Sample.env_ok Sample.cfg kwargs (fresh_world ∅) success (snd run)).
  vm_compute. reflexivity.
Defined.

(** X6: no call is repeated within a DAG run.  Whatever the environment
    answers, a run makes at most one database query, one write of the
    artifact, one read of it, one SMTP connection attempt and one
    [sendmail]. *)
Theorem X6_nothing_is_retried env cfg kwargs w :
  let '(_, _, w') := mysql_to_csv_and_email_dag env cfg kwargs w in
  (length (filter is_query (emitted w w')) <= 1)%nat /\
  (length (filter is_write (emitted w w')) <= 1)%nat /\
  (length (filter is_read (emitted w w')) <= 1)%nat /\
  (length (filter is_smtp_connect (emitted w w')) <= 1)%nat /\
  (length (filter is_sendmail (emitted w w')) <= 1)%nat.
Proof.
  destruct (dag_run env cfg kwargs w) as (w1 & Heq & _ & _ & Ht).
  rewrite Heq, (emitted_app _ _ _ Ht). clear Heq Ht.
  dag_cases env cfg;
    destruct (bool_decide (is_Some (files w !! CSV_FILE_PATH)));
    try (repeat split; apply Nat.leb_le; reflexivity).
  all: match goal with
       | |- context [between_tasks ?E ?fs !! CSV_FILE_PATH] =>
           destruct (between_tasks E fs !! CSV_FILE_PATH) as [data|]
       end; try (repeat split; apply Nat.leb_le; reflexivity).
  all: destruct (smtp_port cfg =? 465), (smtp_connect_raises env),
         (starttls_raises env), (login_raises env);
       repeat split; apply Nat.leb_le; reflexivity.
Qed.

(** The send task of a DAG run attaches whatever is at the artifact path
    when it starts. *)
Lemma dag_attachment env cfg kwargs w df B st1 st2 w' sender rcpts msg ok :
  query_result env = Ok df ->
  fs_write_raises env = None ->
  between_tasks env (<[CSV_FILE_PATH := artifact_bytes df]> (files w))
    !! CSV_FILE_PATH = Some B ->
  mysql_to_csv_and_email_dag env cfg kwargs w = (st1, st2, w') ->
  In (Sendmail sender rcpts msg ok) (emitted w w') ->
  msg = attach (attachment_part B CSV_FILE_PATH) (envelope cfg kwargs).
Proof.
  intros Hq Hw HB Hrun Hin.
  destruct (dag_run env cfg kwargs w) as (w1 & Heq & _ & _ & Ht).
  rewrite Heq in Hrun. injection Hrun as _ _ <-.
  rewrite (emitted_app _ _ _ Ht) in Hin. clear Heq Ht.
  unfold dag_events, save_files in Hin. rewrite Hq, Hw, HB in Hin.
  apply in_app_or in Hin as [Hin|Hin].
  - exfalso. revert Hin.
    unfold fetch_events, query_events, save_events. rewrite Hq.
    destruct (mysql_connect_raises env), (db_link_survives env),
      (bool_decide (is_Some (files w !! CSV_FILE_PATH)));
      rewrite ?Hw; cbn; intuition discriminate.
  - apply sendmail_in_send_events_full in Hin
      as (_ & _ & _ & data & [= <-] & ->).
    reflexivity.
Qed.

(** X7: the only thing the send task takes from the fetch task is the path.
    In a DAG run whose query and write succeeded, a mail handed to the
    server carries the bytes found at the artifact path when the send task
    starts: if another process replaced the file after the fetch task wrote
    it, the replacement is what is mailed. *)
Theorem X7_the_mail_carries_the_file_found_at_the_path
        env cfg kwargs w df B st1 st2 w' sender rcpts msg ok :
  query_result env = Ok df ->
  fs_write_raises env = None ->
  between_tasks env (<[CSV_FILE_PATH := artifact_bytes df]> (files w))
    !! CSV_FILE_PATH = Some B ->
  mysql_to_csv_and_email_dag env cfg kwargs w = (st1, st2, w') ->
  In (Sendmail sender rcpts msg ok) (emitted w w') ->
  exists html att, parts msg = [html; att] /\ decoded_payload att = B.
Proof.
  intros Hq Hw HB Hrun Hin.
  rewrite (dag_attachment env cfg kwargs w df B st1 st2 w' sender rcpts msg ok
             Hq Hw HB Hrun Hin).
  eexists _, (attachment_part B CSV_FILE_PATH). split; [reflexivity|].
  apply decoded_attachment.
Qed.

Lemma X7_witness :
  let kwargs := Sample.kwargs "2025-08-04" "a@x.com" in
  exists html att,
    parts (attach (attachment_part Cases.stale CSV_FILE_PATH)
                  (envelope Sample.cfg kwargs)) = [html; att] /\
    decoded_payload att = Cases.stale.
Proof.
  intros kwargs.
  pose (run := mysql_to_csv_and_email_dag Cases.env_replaced Sample.cfg kwargs
                 (fresh_world ∅)).
  apply (X7_the_mail_carries_the_file_found_at_the_path
           Cases.env_replaced Sample.cfg kwargs (fresh_world ∅)
           Sample.leads Cases.stale
           (fst (fst run)) (snd (fst run)) (snd run)
           (envelope_from Sample.cfg) ["a@x.com"]
           (attach (attachment_part Cases.stale CSV_FILE_PATH)
                   (envelope Sample.cfg kwargs)) true).
  - reflexivity.
  - reflexivity.
  - vm_compute. reflexivity.
  - vm_compute. reflexivity.
  - vm_compute. tauto.
Defined.

(** X8: end to end.  In a DAG run whose query and write succeeded and during
    which no other process touched the artifact, a mail handed to the server
    carries, as its attachment, exactly the CSV text of the table the query
    returned. *)
Theorem X8_the_mail_carries_the_query_result
        env cfg kwargs w df st1 st2 w' sender rcpts msg ok :
  query_result env = Ok df ->
  fs_write_raises env = None ->
  (forall fs, between_tasks env fs !! CSV_FILE_PATH = fs !! CSV_FILE_PATH) ->
  mysql_to_csv_and_email_dag env cfg kwargs w = (st1, st2, w') ->
  In (Sendmail sender rcpts msg ok) (emitted w w') ->
  exists html att,
    parts msg = [html; att] /\
    String.string_of_list_byte (decoded_payload att) = Csv.to_csv df.
Proof.
  intros Hq Hw Hsame Hrun Hin.
  rewrite (dag_attachment env cfg kwargs w df (artifact_bytes df)
             st1 st2 w' sender rcpts msg ok Hq Hw)
    by (assumption || now rewrite Hsame, lookup_insert_eq).
  eexists _, (attachment_part (artifact_bytes df) CSV_FILE_PATH).
  split; [reflexivity|].
  rewrite decoded_attachment. apply string_of_artifact_bytes.
Qed.

Lemma X8_witness :
  let kwargs := Sample.kwargs "2025-08-04" "a@x.com" in
  exists html att,
    parts (attach (attachment_part Sample.artifact CSV_FILE_PATH)
                  (envelope Sample.cfg kwargs)) = [html; att] /\
    String.string_of_list_byte (decoded_payload att) = Csv.to_csv Sample.leads.
Proof.
  intros kwargs.
  pose (run := mysql_to_csv_and_email_dag Sample.env_ok Sample.cfg kwargs
                 (fresh_world ∅)).
  apply (X8_the_mail_carries_the_query_result
           Sample.env_ok Sample.cfg kwargs (fresh_world ∅) Sample.leads
           (fst (fst run)) (snd (fst run)) (snd run)
           (envelope_from Sample.cfg) ["a@x.com"]
           (attach (attachment_part Sample.artifact CSV_FILE_PATH)
                   (envelope Sample.cfg kwargs)) true).
  - reflexivity.
  - reflexivity.
  - intros fs. reflexivity.
  - vm_compute. reflexivity.
  - vm_compute. tauto.
Defined.



(** *** The CSV text keeps every field *)

Lemma written_rows_nonempty df :
  Csv.well_formed df ->
  Forall (fun r => r <> [])
         (Csv.columns df :: map (map Csv.cell_text) (Csv.rows df)).
Proof.
  destruct df as [cols rs]. unfold Csv.well_formed. cbn [Csv.columns Csv.rows].
  intros [Hcols Hwide]. constructor; [exact Hcols|].
  induction Hwide as [|r rs Hr _ IH]; cbn [map]; constructor; [|exact IH].
  destruct r; [|discriminate]. cbn in Hr. now destruct cols.
Qed.

(** X10: the CSV text [to_csv] writes determines the column names and the
    text of every cell: two tables (each with at least one column and rows
    as wide as its header) that are written as the same file have the same
    header and, cell by cell, the same cell text, whatever commas, quotes or
    line breaks the names and cells hold.  Only the kind of a cell (null,
    number or text) can be lost. *)
Theorem X10_csv_text_determines_the_fields df1 df2 :
  Csv.well_formed df1 -> Csv.well_formed df2 ->
  Csv.to_csv df1 = Csv.to_csv df2 ->
  Csv.columns df1 = Csv.columns df2 /\
  map (map Csv.cell_text) (Csv.rows df1) = map (map Csv.cell_text) (Csv.rows df2).
Proof.
  intros H1 H2 Heq.
  pose proof (scan_rows _ (written_rows_nonempty df1 H1)) as S1.
  pose proof (scan_rows _ (written_rows_nonempty df2 H2)) as S2.
  unfold Csv.to_csv in Heq. rewrite Heq, S2 in S1.
  injection S1 as -> ->. split; reflexivity.
Qed.

Lemma X10_witness :
  Csv.columns Sample.blank_text = Csv.columns Sample.null_cell /\
  map (map Csv.cell_text) (Csv.rows Sample.blank_text) =
    map (map Csv.cell_text) (Csv.rows Sample.null_cell).
Proof.
  apply (X10_csv_text_determines_the_fields Sample.blank_text Sample.null_cell).
  - split; [discriminate|]. repeat constructor.
  - split; [discriminate|]. repeat constructor.
  - vm_compute. reflexivity.
Defined.

(** *** The lines of the attachment *)

Section Base64Lines.

Import Base64.

Lemma b64_char_of x : b64_char (char_of x) = true.
Proof. unfold b64_char. now rewrite index_of_char_of. Qed.

Lemma b2a_chars data : all_chars b64_char (b2a data) = true.
Proof.
  induction data as [|x|x y|x y z r IH] using list_ind3; cbn [b2a].
  - reflexivity.
  - destruct (encode3 x x00 x00) as [[[p q] r'] t]. cbn [all_chars].
    now rewrite !b64_char_of.
  - destruct (encode3 x y x00) as [[[p q] r'] t]. cbn [all_chars].
    now rewrite !b64_char_of.
  - destruct (encode3 x y z) as [[[p q] r'] t]. cbn [all_chars].
    now rewrite !b64_char_of, IH.
Qed.

Lemma b2a_length data :
  String.length (b2a data) = (4 * ((length data + 2) / 3))%nat.
Proof.
  induction data as [|x|x y|x y z r IH] using list_ind3; cbn [b2a].
  - reflexivity.
  - destruct (encode3 x x00 x00) as [[[p q] r'] t]. reflexivity.
  - destruct (encode3 x y x00) as [[[p q] r'] t]. reflexivity.
  - destruct (encode3 x y z) as [[[p q] r'] t].
    cbn [String.length length]. rewrite IH.
    replace (S (S (S (length r))) + 2)%nat with (1 * 3 + (length r + 2))%nat
      by lia.
    rewrite Nat.div_add_l by discriminate. lia.
Qed.

Lemma all_chars_no c p s :
  all_chars p s = true -> p c = false -> Py.contains c s = false.
Proof.
  intros Hall Hc. induction s as [|d s IH]; [reflexivity|].
  cbn in *. apply andb_true_iff in Hall as [Hd Hall].
  rewrite IH by exact Hall. destruct (Ascii.eqb_spec d c) as [->|_];
    [congruence|reflexivity].
Qed.

Lemma pieces_bound n : forall s,
  Forall (fun p => (length p <= MAXBINSIZE)%nat) (pieces n s).
Proof.
  induction n as [|n IH]; intros s; [constructor|].
  destruct s as [|x s]; [constructor|].
  cbn [pieces]. constructor; [|apply IH].
  rewrite length_firstn. lia.
Qed.

Lemma split_lines sep lines :
  Forall (fun l => Py.contains sep l = false) lines ->
  Py.split sep (Csv.concat (map (fun l => l +:+ String sep EmptyString) lines))
  = lines ++ [EmptyString].
Proof.
  induction 1 as [|l lines Hl _ IH]; [reflexivity|].
  cbn [map Csv.concat app]. rewrite append_assoc, append_cons, append_nil_l.
  rewrite split_app_sep by exact Hl. now rewrite IH.
Qed.

Lemma encodebytes_lines data :
  Py.split "010"%char (encodebytes data)
  = map b2a (pieces (length data) data) ++ [EmptyString].
Proof.
  unfold encodebytes.
  replace (map b2a_base64 (pieces (length data) data))
    with (map (fun l => l +:+ String "010"%char EmptyString)
              (map b2a (pieces (length data) data)))
    by (rewrite map_map; reflexivity).
  apply split_lines. apply Forall_map, Forall_forall. intros p _.
  apply (all_chars_no _ b64_char); [apply b2a_chars|reflexivity].
Qed.

End Base64Lines.

(** X11: whatever the bytes of the file, the base64 body of the attachment
    is made of lines of at most 76 characters, each ended by a line feed
    (nothing follows the last line feed), and, the line feeds apart, of
    characters of the base64 alphabet and the padding sign only. *)
Theorem X11_attachment_lines_are_short_and_clean (data : list byte) :
  Forall (fun line => (String.length line <= 76)%nat /\
                      all_chars b64_char line = true)
         (Py.split "010"%char (Base64.encodebytes data)) /\
  List.last (Py.split "010"%char (Base64.encodebytes data)) "x" = EmptyString /\
  part_payload (attachment_part data CSV_FILE_PATH)
    = Text (Base64.encodebytes data).
Proof.
  rewrite encodebytes_lines. split; [|split; [|reflexivity]].
  - apply Forall_app. split.
    + apply Forall_map, Forall_forall. intros p Hp.
      pose proof (pieces_bound (length data) data) as Hb.
      rewrite Forall_forall in Hb. apply Hb in Hp.
      split; [|apply b2a_chars]. rewrite b2a_length.
      unfold Base64.MAXBINSIZE in Hp.
      assert ((length p + 2) / 3 <= 19)%nat; [|lia].
      apply Nat.lt_succ_r, Nat.Div0.div_lt_upper_bound. lia.
    + constructor; [|constructor]. split; [cbn; lia|reflexivity].
  - apply last_last.
Qed.

(** *** The name of the attachment *)

Lemma py_last_app a b :
  b <> EmptyString -> Py.last (a +:+ b) = Py.last b.
Proof.
  intros Hb. induction a as [|c a IH]; [reflexivity|].
  rewrite append_cons. cbn [Py.last]. rewrite IH.
  destruct (a +:+ b) eqn:E; [|reflexivity].
  destruct a; [now rewrite append_nil_l in E|discriminate].
Qed.

Lemma join_last sep l d :
  l <> [] ->
  exists pre, Py.join (String sep EmptyString) l = pre +:+ List.last l d /\
              (pre = EmptyString \/ Py.last pre = Some sep).
Proof.
  induction l as [|t l IH]; intros Hne; [contradiction|].
  destruct l as [|u l].
  - exists EmptyString. auto.
  - destruct IH as (pre & Hj & Hpre); [discriminate|].
    exists (t +:+ String sep pre). split.
    + rewrite join_cons, Hj, append_cons, append_nil_l.
      now rewrite !append_assoc, append_cons.
    + right. rewrite py_last_app by discriminate.
      destruct Hpre as [-> | Hl]; [reflexivity|].
      cbn [Py.last]. destruct pre; [discriminate|exact Hl].
Qed.

Lemma last_in {A} (l : list A) d : l <> [] -> In (List.last l d) l.
Proof.
  induction l as [|x l IH]; intros Hne; [contradiction|].
  destruct l as [|y l]; [now left|]. right. apply IH. discriminate.
Qed.

(** X12: the file name announced for the attachment is the last component
    of the path: it holds no slash, and the path is the name preceded by
    nothing or by a directory part that ends with a slash.  A path that ends
    with a slash gives the empty name. *)
Theorem X12_attachment_name_is_the_last_component (data : list byte) (p : string) :
  In ("Content-Disposition", "attachment; filename= " +:+ Py.basename p)
     (part_headers (attachment_part data p)) /\
  Py.contains "/" (Py.basename p) = false /\
  (exists dir, p = dir +:+ Py.basename p /\
               (dir = EmptyString \/ Py.last dir = Some "/"%char)) /\
  (Py.last p = Some "/"%char -> Py.basename p = EmptyString).
Proof.
  split; [cbn; auto|]. unfold Py.basename.
  pose proof (split_nonempty "/" p) as Hne.
  assert (Py.contains "/" (List.last (Py.split "/" p) EmptyString) = false)
    as Hnoslash.
  { pose proof (split_no_sep "/" p) as Hall. rewrite Forall_forall in Hall.
    apply Hall, list_elem_of_In, last_in, Hne. }
  destruct (join_last "/" (Py.split "/" p) EmptyString Hne) as (pre & Hj & Hpre).
  rewrite join_split in Hj.
  split; [exact Hnoslash|]. split; [eauto|].
  intros Hlast. destruct (List.last (Py.split "/" p) EmptyString) as [|c b] eqn:E;
    [reflexivity|].
  exfalso. rewrite Hj, py_last_app in Hlast by discriminate.
  clear -Hlast Hnoslash. revert c Hlast Hnoslash.
  induction b as [|d b IH]; intros c Hl Hn; cbn in *.
  - injection Hl as ->. discriminate.
  - apply orb_false_iff in Hn as [_ Hn]. now apply (IH d).
Qed.

Lemma X12_witness :
  Py.basename "/mnt/c/airflow/temp/" = EmptyString.
Proof.
  apply (X12_attachment_name_is_the_last_component [] "/mnt/c/airflow/temp/").
  reflexivity.
Defined.

(** *** What the [except] clause of the fetch task does *)

Lemma printed_app (w w' : World) (lines : list string) :
  stdout w' = stdout w ++ lines -> printed w w' = lines.
Proof. intros H. unfold printed. rewrite H. apply drop_app_length. Qed.

(** X13: the fetch task neither swallows nor translates a failure of the
    database.  Whatever [connect] or [pd.read_sql] raises is what the task
    raises; the [except] clause only prints, and it prints its line exactly
    when the exception is a [mysql.connector.Error]: any other exception
    (the [DatabaseError] pandas raises for a failed query) passes
    without a line.  No connection is left open either way. *)
Theorem X13_database_failures_pass_unchanged env cfg l w e :
  mysql_connect_raises env = Some e \/
  (mysql_connect_raises env = None /\ read_sql_answer env = Raise e) ->
  let '(r, _, w') := fetch_mysql_data_and_save_as_csv env cfg l w in
  r = Raise e /\
  existsb (String.eqb (mysql_error_line e)) (printed w w') = is_mysql_error e /\
  existsb opens_db (emitted w w') && is_open (db_link w') = false.
Proof.
  destruct env as [c q sv fw bt sc st lg sm qt], cfg, w as [fs d s t o].
  cbn [mysql_connect_raises read_sql_answer].
  intros [-> | [-> ->]]; run_task.
  - destruct e; run_task;
      (split; [reflexivity|]);
      (split; [erewrite printed_app
                 by (cbn [stdout]; trace_shape; reflexivity);
               vm_compute; reflexivity|]);
      (erewrite emitted_app by (cbn [trace]; trace_shape; reflexivity));
      reflexivity.
  - destruct sv, e; run_task;
      (split; [reflexivity|]);
      (split; [erewrite printed_app
                 by (cbn [stdout]; trace_shape; reflexivity);
               vm_compute; reflexivity|]);
      (erewrite emitted_app by (cbn [trace]; trace_shape; reflexivity));
      reflexivity.
Qed.

Lemma X13_witness :
  let '(r, _, w') :=
    fetch_mysql_data_and_save_as_csv Cases.env_query_fails Sample.cfg
      {| conn := None |} (fresh_world Sample.disk) in
  r = Raise DatabaseError /\
  existsb (String.eqb (mysql_error_line DatabaseError))
          (printed (fresh_world Sample.disk) w') = is_mysql_error DatabaseError /\
  existsb opens_db (emitted (fresh_world Sample.disk) w')
  && is_open (db_link w') = false.
Proof.
  apply (X13_database_failures_pass_unchanged
           Cases.env_query_fails Sample.cfg {| conn := None |}
           (fresh_world Sample.disk) DatabaseError).
  right. split; reflexivity.
Defined.

(** *** The recipients as a normal form *)

Lemma lstrip_keeps_absent c t :
  Py.contains c t = false -> Py.contains c (Py.lstrip t) = false.
Proof.
  induction t as [|d t IH]; [reflexivity|]. cbn [Py.lstrip]. intros H.
  destruct (Py.isspace d); [|exact H].
  cbn in H. apply orb_false_iff in H as [_ H]. now apply IH.
Qed.

Lemma rstrip_keeps_absent c t :
  Py.contains c t = false -> Py.contains c (Py.rstrip t) = false.
Proof.
  induction t as [|d t IH]; [reflexivity|]. cbn [Py.rstrip Py.contains].
  intros H. apply orb_false_iff in H as [Hd H]. specialize (IH H).
  destruct (Py.rstrip t) as [|x u].
  - destruct (Py.isspace d); cbn; [reflexivity|now rewrite Hd].
  - cbn [Py.contains] in *. rewrite Hd. exact IH.
Qed.

Lemma strip_idempotent t : Py.strip (Py.strip t) = Py.strip t.
Proof.
  symmetry. apply trimmed_unique.
  destruct (strip_trimmed t) as (_ & Hfirst & Hlast).
  split; [|split; assumption].
  exists EmptyString, EmptyString.
  rewrite append_nil_l, append_nil_r. auto.
Qed.

(** X14: the recipients list is a normal form.  No address in it holds a
    comma, and writing the list back as a comma-separated string and parsing
    that string again gives the same list. *)
Theorem X14_recipients_survive_a_second_parse (s : string) :
  Forall (fun addr => Py.contains "," addr = false) (recipients_list s) /\
  recipients_list (Py.join "," (recipients_list s)) = recipients_list s.
Proof.
  assert (Forall (fun addr => Py.contains "," addr = false) (recipients_list s))
    as Hnc.
  { unfold recipients_list. apply Forall_map.
    pose proof (split_no_sep "," s) as Hall.
    eapply Forall_impl; [exact Hall|]. intros t Ht. cbn beta.
    unfold Py.strip. now apply rstrip_keeps_absent, lstrip_keeps_absent. }
  split; [exact Hnc|].
  unfold recipients_list at 1.
  change "," with (String ","%char EmptyString).
  rewrite split_join; [|unfold recipients_list; pose proof (split_nonempty "," s);
                         destruct (Py.split "," s); [contradiction|discriminate]
                       |exact Hnc].
  unfold recipients_list. rewrite map_map.
  apply map_ext. intros t. apply strip_idempotent.
Qed.
